(** * Sales / COGS analytics dashboard: the filter, the aggregations and the
      report generator's recommendation rules

    A shallow embedding of [app.py] and [pdf_exporter.py].  A pandas DataFrame
    is a list of rows, a Series a list of values or of (label, value) pairs, a
    Python dict an association list in insertion order.

    Numbers.  Column values are exact rationals ([Q]); the result of a numpy
    true division is an [np_float]: a rational, an infinity or NaN, so that
    what numpy does on a zero divisor (no exception, [inf] or [nan]) is part of
    the model.  The ['Qty'] column is int64: its sums wrap around at 2^63
    ([wrap64]).  Binary rounding of floats and the sign of zero are not
    modelled.

    The class [SalesDataAnalyzer] ([data_analyzer.py]) is imported by both
    files but is not part of the sources at hand: module [Analyzer] models it
    from the written specification, and the functions of [pdf_exporter.py]
    that consume its tables take the table as an argument. *)

From Stdlib Require Import List String Ascii ZArith QArith Qround Bool Lia Lqa.
From Stdlib Require Import DecimalString.
From Stdlib Require Import Permutation Sorted.
Import ListNotations.

Local Open Scope string_scope.
Local Open Scope Z_scope.
Local Open Scope Q_scope.

(* ------------------------------------------------------------------ *)
(** ** Python values, exceptions *)

Inductive exn : Type :=
| ZeroDivisionError
| ValueError
| IndexError
| InvalidFilterError.

Inductive py (A : Type) : Type :=
| Ok (a : A)
| Raise (e : exn).

Arguments Ok {A} a.
Arguments Raise {A} e.

Definition bind {A B : Type} (m : py A) (k : A -> py B) : py B :=
  match m with
  | Ok a => k a
  | Raise e => Raise e
  end.

Notation "x <- m ;; k" := (bind m (fun x => k))
  (at level 61, m at next level, right associativity).

(** numpy float64 scalars, up to rounding. *)
Inductive np_float : Type :=
| Finite (q : Q)
| PosInf
| NegInf
| NaN.

Inductive pyval : Type :=
| PyStr (s : string)
| PyInt (z : Z)
| PyFloat (x : np_float)
| PyNone.

(** A dict literal: keys in insertion order. *)
Definition pydict : Type := list (string * pyval).

Fixpoint dict_get (k : string) (d : pydict) : option pyval :=
  match d with
  | [] => None
  | (k', v) :: d' => if String.eqb k k' then Some v else dict_get k d'
  end.

Definition is_str (v : pyval) : bool :=
  match v with
  | PyStr _ => true
  | _ => false
  end.

(* ------------------------------------------------------------------ *)
(** ** numpy arithmetic on scalars *)

Module Np.

(** [a / b] on two finite float64 scalars: never raises. *)
Definition div (a b : Q) : np_float :=
  if Qeq_bool b 0 then
    if Qeq_bool a 0 then NaN
    else if Qle_bool 0 a then PosInf else NegInf
  else Finite (a / b).

(** [x * k] for a finite constant [k]. *)
Definition mul (x : np_float) (k : Q) : np_float :=
  match x with
  | Finite q => Finite (q * k)
  | PosInf => if Qeq_bool k 0 then NaN else if Qle_bool 0 k then PosInf else NegInf
  | NegInf => if Qeq_bool k 0 then NaN else if Qle_bool 0 k then NegInf else PosInf
  | NaN => NaN
  end.

Definition Qlt_bool (a b : Q) : bool := negb (Qle_bool b a).

(** [x > y] and [x < y]: false as soon as one side is NaN. *)
Definition gt (x y : np_float) : bool :=
  match x, y with
  | Finite a, Finite b => Qlt_bool b a
  | PosInf, Finite _ | PosInf, NegInf | Finite _, NegInf => true
  | _, _ => false
  end.

Definition lt (x y : np_float) : bool := gt y x.

Definition is_finite (x : np_float) : bool :=
  match x with
  | Finite _ => true
  | _ => false
  end.

(** [Series.sum()]: 0 on the empty Series. *)
Definition sum (xs : list Q) : Q := fold_right Qplus 0 xs.

(** [Series.mean()]: NaN on the empty Series. *)
Definition mean (xs : list Q) : np_float :=
  match xs with
  | [] => NaN
  | _ => Finite (sum xs / inject_Z (Z.of_nat (List.length xs)))
  end.

Fixpoint insert_sorted (x : Q) (l : list Q) : list Q :=
  match l with
  | [] => [x]
  | y :: l' => if Qle_bool x y then x :: l else y :: insert_sorted x l'
  end.

Definition sort (l : list Q) : list Q := fold_right insert_sorted [] l.

(** [Series.quantile(q)], linear interpolation between the two order
    statistics around position [(n-1) * q]; NaN on the empty Series. *)
Definition quantile (xs : list Q) (q : Q) : np_float :=
  match xs with
  | [] => NaN
  | _ =>
      let s := sort xs in
      let n := List.length xs in
      let h := inject_Z (Z.of_nat (n - 1)) * q in
      let lo := Z.to_nat (Qfloor h) in
      let frac := h - inject_Z (Qfloor h) in
      let a := nth lo s 0 in
      let b := nth (Nat.min (S lo) (n - 1)) s 0 in
      Finite (a + (b - a) * frac)
  end.

(** [Series.median()]: the middle value, or the mean of the two middle ones. *)
Definition median (xs : list Q) : np_float :=
  match xs with
  | [] => NaN
  | _ =>
      let s := sort xs in
      let n := List.length xs in
      if Nat.odd n then Finite (nth (Nat.div2 n) s 0)
      else Finite ((nth (Nat.div2 n - 1) s 0 + nth (Nat.div2 n) s 0) / 2)
  end.

End Np.

(* ------------------------------------------------------------------ *)
(** ** Format specifications of f-strings *)

Module Fmt.

Definition round_half_even (q : Q) : Z :=
  let n := Qnum q in
  let d := Zpos (Qden q) in
  let fl := (n / d)%Z in
  match (2 * (n mod d) ?= d)%Z with
  | Lt => fl
  | Gt => (fl + 1)%Z
  | Eq => if Z.even fl then fl else (fl + 1)%Z
  end.

(** [str(n)] for an int. *)
Definition str_int (z : Z) : string := NilZero.string_of_int (Z.to_int z).

Definition str_nat (n : nat) : string := str_int (Z.of_nat n).

Fixpoint group3 (fuel : nat) (rev_digits : list ascii) : list ascii :=
  match fuel with
  | O => rev_digits
  | S fuel' =>
      match rev_digits with
      | a :: b :: c :: (_ :: _) as rest => a :: b :: c :: ","%char :: group3 fuel' rest
      | _ => rev_digits
      end
  end.

(** The [,] option: a comma between groups of three digits. *)
Definition with_commas (digits : string) : string :=
  let l := list_ascii_of_string digits in
  string_of_list_ascii (rev (group3 (List.length l) (rev l))).

Definition sign_of (q : Q) : string := if Np.Qlt_bool q 0 then "-" else "".

(** [f'{x:,.0f}'] *)
Definition comma_0f (x : np_float) : string :=
  match x with
  | Finite q => sign_of q ++ with_commas (str_int (Z.abs (round_half_even q)))
  | PosInf => "inf"
  | NegInf => "-inf"
  | NaN => "nan"
  end.

(** [f'{x:.1f}'] *)
Definition dot_1f (x : np_float) : string :=
  match x with
  | Finite q =>
      let t := Z.abs (round_half_even (q * 10)) in
      sign_of q ++ str_int (t / 10)%Z ++ "." ++ str_int (t mod 10)%Z
  | PosInf => "inf"
  | NegInf => "-inf"
  | NaN => "nan"
  end.

End Fmt.

(* ------------------------------------------------------------------ *)
(** ** The canonical dataset *)

(** One transaction; the fields are the DataFrame's columns ['Sales Date'],
    ['Menu'], ['Menu Category'], ['Branch'], ['Qty'], ['Price'], ['Total'],
    ['COGS Total'], ['COGS Total (%)'] and ['Margin'].  A timestamp is a
    number of seconds since 1970-01-01 00:00. *)
Record Row : Type := mkRow {
  Sales_Date : Z;
  Menu : string;
  Menu_Category : string;
  Branch : string;
  Qty : Z;
  Price : Q;
  Total : Q;
  COGS_Total : Q;
  COGS_Total_pct : Q;
  Margin : Q
}.

Definition DataFrame : Type := list Row.

(** One row of a per-menu table of the analyzer; the columns are the ones
    the report reads: ['Menu'], ['Total_Qty'], ['Total_Revenue'],
    ['Total_Margin'], ['Avg_Margin'], ['Margin_Percentage'], ['Avg_COGS_Pct']. *)
Record MenuRow : Type := mkMenuRow {
  menu : string;
  Total_Qty : Z;
  Total_Revenue : Q;
  Total_Margin : Q;
  Avg_Margin : Q;
  Margin_Percentage : Q;
  Avg_COGS_Pct : Q
}.

Definition MenuTable : Type := list MenuRow.

(** The ['Total_Qty'] column, as floats. *)
Definition qty_column (t : MenuTable) : list Q := map (fun r => inject_Z (Total_Qty r)) t.

(** Column sums. *)
Definition col_sum {A : Type} (f : A -> Q) (df : list A) : Q := Np.sum (map f df).

(** An int64 value: two's complement wrap-around at 2^63. *)
Definition wrap64 (z : Z) : Z := ((z + 2 ^ 63) mod 2 ^ 64 - 2 ^ 63)%Z.

(** [sum()] of an int64 column: numpy adds without an overflow check, the
    result is the sum modulo 2^64 read as a signed number. *)
Definition col_sumZ {A : Type} (f : A -> Z) (df : list A) : Z :=
  wrap64 (fold_right Z.add 0%Z (map f df)).

(* ------------------------------------------------------------------ *)
(** ** Grouping *)

Section GroupBy.

Variable K : Type.
Variables eqb leb : K -> K -> bool.

(** [Series.unique()]: distinct values, first seen first. *)
Fixpoint unique (l : list K) : list K :=
  match l with
  | [] => []
  | x :: l' => x :: filter (fun y => negb (eqb y x)) (unique l')
  end.

Fixpoint insert_key (x : K) (l : list K) : list K :=
  match l with
  | [] => [x]
  | y :: l' => if leb x y then x :: l else y :: insert_key x l'
  end.

Definition sort_keys (l : list K) : list K := fold_right insert_key [] l.

(** The group labels of [groupby(key)]: distinct, ascending. *)
Definition group_keys (l : list K) : list K := sort_keys (unique l).

End GroupBy.

Arguments unique {K} eqb l.
Arguments insert_key {K} leb x l.
Arguments sort_keys {K} leb l.
Arguments group_keys {K} eqb leb l.

(** [df.groupby(key)[val].sum()]: a Series indexed by the group labels. *)
Definition groupby_sum (key : Row -> string) (val : Row -> Q) (df : DataFrame)
  : list (string * Q) :=
  map (fun k => (k, col_sum val (filter (fun r => String.eqb (key r) k) df)))
      (group_keys String.eqb String.leb (map key df)).

(** [Series.idxmax()]: the label of the first maximum; ValueError when empty. *)
Fixpoint idxmax_from (best : string * Q) (s : list (string * Q)) : string :=
  match s with
  | [] => fst best
  | kv :: s' => idxmax_from (if Np.Qlt_bool (snd best) (snd kv) then kv else best) s'
  end.

Definition idxmax (s : list (string * Q)) : py string :=
  match s with
  | [] => Raise ValueError
  | kv :: s' => Ok (idxmax_from kv s')
  end.

(** [df.iloc[0]]: IndexError on an empty frame. *)
Definition iloc0 {A : Type} (df : list A) : py A :=
  match df with
  | [] => Raise IndexError
  | r :: _ => Ok r
  end.

(* ------------------------------------------------------------------ *)
(** ** Further pandas and numpy operations *)

Module Pd.

(** [x - y] on float64 scalars. *)
Definition sub (x y : np_float) : np_float :=
  match x, y with
  | NaN, _ | _, NaN => NaN
  | Finite a, Finite b => Finite (a - b)
  | PosInf, PosInf | NegInf, NegInf => NaN
  | PosInf, _ | _, NegInf => PosInf
  | NegInf, _ | _, PosInf => NegInf
  end.

(** [x / y] on float64 scalars. *)
Definition divf (x y : np_float) : np_float :=
  match x, y with
  | NaN, _ | _, NaN => NaN
  | Finite a, Finite b => Np.div a b
  | Finite _, _ => Finite 0
  | _, PosInf | _, NegInf => NaN
  | PosInf, Finite b => if Np.Qlt_bool b 0 then NegInf else PosInf
  | NegInf, Finite b => if Np.Qlt_bool b 0 then PosInf else NegInf
  end.

(** [x <= y]: false as soon as one side is NaN. *)
Definition le (x y : np_float) : bool :=
  match x, y with
  | NaN, _ | _, NaN => false
  | Finite a, Finite b => Qle_bool a b
  | NegInf, _ | _, PosInf => true
  | _, _ => false
  end.

Definition qmax (a b : Q) : Q := if Qle_bool a b then b else a.
Definition qmin (a b : Q) : Q := if Qle_bool b a then b else a.

(** [Series.max()] and [Series.min()]: NaN on the empty Series. *)
Definition max (xs : list Q) : np_float :=
  match xs with
  | [] => NaN
  | x :: xs' => Finite (fold_left qmax xs' x)
  end.

Definition min (xs : list Q) : np_float :=
  match xs with
  | [] => NaN
  | x :: xs' => Finite (fold_left qmin xs' x)
  end.

(** [df.nlargest(n, col)]: the [n] rows with the largest values, largest
    first, rows with equal values in their order in the frame. *)
Definition nlargest {A : Type} (n : nat) (col : A -> Q) (df : list A) : list A :=
  firstn n (sort_keys (fun a b => Qle_bool (col b) (col a)) df).

(** [Series.dt.date] of a timestamp column. *)
Definition dt_date (ts : Z) : Z := (ts / 86400)%Z.

(** [enumerate(rows, start)] *)
Definition enumerate {A : Type} (start : nat) (l : list A) : list (nat * A) :=
  combine (seq start (List.length l)) l.

(** Truth value of a string in a condition: the empty string is false. *)
Definition truthy (s : string) : bool :=
  match s with
  | EmptyString => false
  | _ => true
  end.

End Pd.

(* ------------------------------------------------------------------ *)
(** ** [SalesDataAnalyzer] *)

Module Analyzer.

(** Modelled from the spec: [data_analyzer.py], the file of the class
    [SalesDataAnalyzer], is missing; the calendar date of a sale timestamp
    ("time-of-day component is ignored"). *)
Definition date_of (ts : Z) : Z := (ts / 86400)%Z.







(** Modelled from the spec: the missing class's guard of a ratio, "guard
    divide-by-zero -> 0". *)
Definition guarded_div (a b : Q) : Q := if Qeq_bool b 0 then 0 else a / b.

(** Modelled from the spec: [get_unique_categories] of the missing class,
    "the set of distinct menu_category values (order: first-seen)". *)
Definition get_unique_categories (df : DataFrame) : list string :=
  unique String.eqb (map Menu_Category df).

(** Modelled from the spec: [get_unique_branches] of the missing class, "the
    set of distinct branch values". *)
Definition get_unique_branches (df : DataFrame) : list string :=
  unique String.eqb (map Branch df).

(** Modelled from the spec: the Filter Specification of the missing
    [apply_filters]: inclusive calendar dates, the allowed categories, the
    selected branch ([None] when the caller has no branch to offer). *)
Record FilterSpec : Type := mkFilter {
  date_start : Z;
  date_end : Z;
  categories : list string;
  branch : option string
}.

(** Modelled from the spec: the date criterion of the missing
    [apply_filters], "inclusive on both ends, interpreted as calendar dates". *)
Definition date_pass (f : FilterSpec) (r : Row) : bool :=
  (date_start f <=? date_of (Sales_Date r))%Z && (date_of (Sales_Date r) <=? date_end f)%Z.

(** Modelled from the spec: the category criterion of the missing
    [apply_filters], "included iff its menu_category is in the provided set". *)
Definition category_pass (f : FilterSpec) (r : Row) : bool :=
  existsb (String.eqb (Menu_Category r)) (categories f).

(** Modelled from the spec: the missing [apply_filters]'s "branch == selected
    branch". *)
Definition branch_eqb (b : string) (sel : option string) : bool :=
  match sel with
  | Some s => String.eqb b s
  | None => false
  end.

(** Modelled from the spec: the branch criterion of the missing
    [apply_filters], "when exactly one branch exists in the data, the branch
    parameter is ignored and all rows pass; otherwise only rows with branch ==
    selected branch pass". *)
Definition branch_pass (df : DataFrame) (f : FilterSpec) (r : Row) : bool :=
  if Nat.eqb (List.length (get_unique_branches df)) 1 then true
  else branch_eqb (Branch r) (branch f).

(** Modelled from the spec: [apply_filters] of the missing class; a start
    date after the end date is an InvalidFilterError, otherwise the rows that
    pass the three criteria, in their order. *)
Definition apply_filters (df : DataFrame) (f : FilterSpec) : py DataFrame :=
  if (date_end f <? date_start f)%Z then Raise InvalidFilterError
  else Ok (filter (fun r => date_pass f r && category_pass f r && branch_pass df f r) df).

(** Modelled from the spec: one row of [get_comprehensive_menu_analysis] of
    the missing class, the totals and guarded ratios of the rows of one menu. *)
Definition menu_row (k : string) (g : DataFrame) : MenuRow :=
  {| menu := k;
     Total_Qty := col_sumZ Qty g;
     Total_Revenue := col_sum Total g;
     Total_Margin := col_sum Margin g;
     Avg_Margin := guarded_div (col_sum Margin g) (inject_Z (col_sumZ Qty g));
     Margin_Percentage := guarded_div (col_sum Margin g) (col_sum Total g) * 100;
     Avg_COGS_Pct :=
       guarded_div (col_sum COGS_Total_pct g) (inject_Z (Z.of_nat (List.length g))) |}.

(** Modelled from the spec: the missing class's ranking order, "sort
    descending ...; ties broken by menu_name ascending". *)
Definition desc_by (col : MenuRow -> Q) (a b : MenuRow) : bool :=
  Np.Qlt_bool (col b) (col a) || (Qeq_bool (col a) (col b) && String.leb (menu a) (menu b)).


(** Modelled from the spec: the grouping of the missing class, "group by
    menu_name", one row per distinct menu. *)
Definition menu_groups (df : DataFrame) : MenuTable :=
  map (fun k => menu_row k (filter (fun r => String.eqb (Menu r) k) df))
      (group_keys String.eqb String.leb (map Menu df)).

(** Modelled from the spec: [get_comprehensive_menu_analysis] of the missing
    class, "group by menu_name producing, for every distinct menu, total
    quantity, total revenue, ...".  The spec gives the rows no ranking: they
    come as the grouping leaves them, one per menu, by menu name. *)
Definition get_comprehensive_menu_analysis (df : DataFrame) : MenuTable :=
  menu_groups df.

(** Modelled from the spec: [get_top_performing_menus] of the missing class,
    "sort descending by summed quantity ...; return top n rows". *)
Definition get_top_performing_menus (df : DataFrame) (n : nat) : MenuTable :=
  firstn n (sort_keys (desc_by (fun r => inject_Z (Total_Qty r)))
                      (get_comprehensive_menu_analysis df)).

(** Modelled from the spec: [get_most_profitable_menus] of the missing class,
    "sort descending by average margin-per-unit ...; return top n". *)
Definition get_most_profitable_menus (df : DataFrame) (n : nat) : MenuTable :=
  firstn n (sort_keys (desc_by Avg_Margin) (get_comprehensive_menu_analysis df)).

(** Modelled from the spec: [get_high_cogs_menus] of the missing class, "sort
    descending (high) by average cogs_pct; return top n". *)
Definition get_high_cogs_menus (df : DataFrame) (n : nat) : MenuTable :=
  firstn n (sort_keys (desc_by Avg_COGS_Pct) (get_comprehensive_menu_analysis df)).









(** Modelled from the spec: the missing class's "clamped to [0,100]". *)
Definition clamp (lo hi x : Q) : Q :=
  if Qle_bool x lo then lo else if Qle_bool hi x then hi else x.

(** Modelled from the spec: [calculate_cogs_efficiency] of the missing class,
    "100 - average(cogs_pct) clamped to [0,100]". *)
Definition calculate_cogs_efficiency (df : DataFrame) : Q :=
  let avg := guarded_div (col_sum COGS_Total_pct df) (inject_Z (Z.of_nat (List.length df))) in
  clamp 0 100 (100 - avg).

(** Modelled from the spec: the named thresholds of the missing
    [get_cogs_optimization_recommendations], "configuration constants, not
    hardwired magic". *)
Record Config : Type := mkConfig {
  cogs_threshold : Q;
  saving_rate : Q;
  concentration_threshold : Q;
  low_quantile : Q;
  margin_quantile : Q;
  margin_multiple : Q;
  listed_menus : nat;
  top_menus : nat
}.


(** Modelled from the spec: the first rule of the missing
    [get_cogs_optimization_recommendations], "reduce COGS on specific menus". *)
Definition rule_reduce_cogs (c : Config) (df : DataFrame) : list pydict :=
  let worst := get_high_cogs_menus df (listed_menus c) in
  let avg := guarded_div (col_sum Avg_COGS_Pct worst)
                         (inject_Z (Z.of_nat (List.length worst))) in
  if Np.Qlt_bool (cogs_threshold c) avg then
    [[("title", PyStr "Reduce COGS on specific menus");
      ("description", PyStr ("High COGS: " ++ String.concat ", " (map menu worst)));
      ("potential_saving",
       PyStr ("Rp " ++ Fmt.comma_0f (Finite (saving_rate c * col_sum Total_Revenue worst))))]]
  else [].

(** Modelled from the spec: the second rule of the missing rule engine,
    "diversify portfolio". *)
Definition rule_diversify (c : Config) (df : DataFrame) : list pydict :=
  let top := firstn (top_menus c)
               (sort_keys (desc_by Total_Revenue) (get_comprehensive_menu_analysis df)) in
  let share := guarded_div (col_sum Total_Revenue top) (col_sum Total df) * 100 in
  if Np.Qlt_bool (concentration_threshold c) share then
    [[("title", PyStr "Diversify portfolio");
      ("description", PyStr (Fmt.dot_1f (Finite share) ++ "% of revenue comes from the top menus"));
      ("potential_saving", PyStr "Long-term revenue stability")]]
  else [].

(** Modelled from the spec: the third rule of the missing rule engine,
    "optimize or discontinue". *)
Definition rule_underperformers (c : Config) (df : DataFrame) : list pydict :=
  let t := get_comprehensive_menu_analysis df in
  let low := filter (fun r => Np.lt (Finite (inject_Z (Total_Qty r)))
                                    (Np.quantile (qty_column t) (low_quantile c))) t in
  match low with
  | [] => []
  | _ =>
    [[("title", PyStr "Optimize or discontinue");
      ("description", PyStr (Fmt.str_nat (List.length low) ++ " menus sell poorly"));
      ("potential_saving", PyStr "Operational efficiency")]]
  end.

(** Modelled from the spec: the fourth rule of the missing rule engine,
    "promote high-margin/low-volume items". *)
Definition rule_promote (c : Config) (df : DataFrame) : list pydict :=
  let t := get_comprehensive_menu_analysis df in
  let sel := filter (fun r =>
                 Np.gt (Finite (Margin_Percentage r))
                       (Np.quantile (map Margin_Percentage t) (margin_quantile c))
                 && Np.lt (Finite (inject_Z (Total_Qty r))) (Np.median (qty_column t))) t in
  match sel with
  | [] => []
  | _ =>
    [[("title", PyStr "Promote high-margin/low-volume items");
      ("description", PyStr (Fmt.str_nat (List.length sel) ++ " menus have a high margin and a low volume"));
      ("potential_saving",
       PyStr ("Rp " ++ Fmt.comma_0f (Finite (margin_multiple c * col_sum Total_Margin sel))))]]
  end.

(** Modelled from the spec: [get_cogs_optimization_recommendations] of the
    missing class, "rules fire independently and may each produce zero or one
    recommendation". *)
Definition get_cogs_optimization_recommendations (c : Config) (df : DataFrame) : list pydict :=
  rule_reduce_cogs c df ++ rule_diversify c df ++ rule_underperformers c df ++ rule_promote c df.

End Analyzer.

(* ------------------------------------------------------------------ *)
(** ** [app.py] *)

Module App.

(** [main], the branch selector: the selectbox is only shown, and its value
    only read, when the data has more than one branch. *)
Definition selected_branch (branches : list string) (selectbox : string) : option string :=
  if (1 <? List.length branches)%nat then Some selectbox
  else match branches with
       | b :: _ => Some b
       | [] => None
       end.

(** [main]: [filtered_data = analyzer.apply_filters(date_range, categories,
    selected_branch)]. *)
Definition filtered_data (df : DataFrame) (date_range : Z * Z) (categories : list string)
    (selectbox : string) : py DataFrame :=
  let branches := Analyzer.get_unique_branches df in
  Analyzer.apply_filters df
    (Analyzer.mkFilter (fst date_range) (snd date_range) categories
                       (selected_branch branches selectbox)).

(** [display_overview], the "Margin %" card. *)
Definition display_overview_avg_margin_pct (data : DataFrame) : np_float :=
  let total_revenue := col_sum Total data in
  let total_margin := col_sum Margin data in
  if Np.Qlt_bool 0 total_revenue
  then Np.mul (Np.div total_margin total_revenue) 100
  else Finite 0.

(** [display_overview], the "Menu Terlaris" box: [top_menu.iloc[0]['Menu']]. *)
Definition display_overview_top_menu (data : DataFrame) : py string :=
  r <- iloc0 (Analyzer.get_top_performing_menus data 5) ;; Ok (menu r).

(** [display_profitability_analysis], the "Gross Margin %" metric. *)
Definition display_profitability_gross_margin (data : DataFrame) : np_float :=
  Np.mul (Np.div (col_sum Total data - col_sum COGS_Total data) (col_sum Total data)) 100.

(** [display_menu_analysis], the two tables of the best menus of
    [menu_performance = analyzer.get_comprehensive_menu_analysis(data)]. *)
Definition display_menu_analysis_top_volume (menu_performance : MenuTable) : MenuTable :=
  Pd.nlargest 10 (fun r => inject_Z (Total_Qty r)) menu_performance.

Definition display_menu_analysis_top_revenue (menu_performance : MenuTable) : MenuTable :=
  Pd.nlargest 10 Total_Revenue menu_performance.

(** [display_menu_analysis], the options of the menu selector:
    [data['Menu'].unique()]. *)
Definition menu_options (data : DataFrame) : list string :=
  unique String.eqb (map Menu data).

(** [display_menu_analysis]: [menu_data = data[data['Menu'] == selected_menu]]. *)
Definition menu_data (data : DataFrame) (selected_menu : string) : DataFrame :=
  filter (fun r => String.eqb (Menu r) selected_menu) data.

(** [display_menu_analysis]: [menu_daily], the quantity and revenue of the
    selected menu per calendar date. *)
Definition menu_daily (menu_data : DataFrame) : list (Z * (Z * Q)) :=
  map (fun d =>
         let g := filter (fun r => (Pd.dt_date (Sales_Date r) =? d)%Z) menu_data in
         (d, (col_sumZ Qty g, col_sum Total g)))
      (group_keys Z.eqb Z.leb (map (fun r => Pd.dt_date (Sales_Date r)) menu_data)).

(** [display_menu_analysis], the detail block under [if selected_menu:]: the
    four metrics and the daily trend; the selector returns [None] when it has
    no option. *)
Record MenuDetail : Type := mkMenuDetail {
  detail_qty : Z;
  detail_revenue : Q;
  detail_avg_cogs_pct : np_float;
  detail_margin : Q;
  detail_daily : list (Z * (Z * Q))
}.

Definition display_menu_detail (data : DataFrame) (selected_menu : option string)
  : option MenuDetail :=
  match selected_menu with
  | None => None
  | Some m =>
      if Pd.truthy m then
        let menu_data := menu_data data m in
        Some {| detail_qty := col_sumZ Qty menu_data;
                detail_revenue := col_sum Total menu_data;
                detail_avg_cogs_pct := Np.mean (map COGS_Total_pct menu_data);
                detail_margin := col_sum Margin menu_data;
                detail_daily := menu_daily menu_data |}
      else None
  end.

(** [display_chatbot]: the messages of [st.session_state.chat_history]. *)
Definition user_message (content : string) : pydict :=
  [("role", PyStr "user"); ("content", PyStr content)].

Definition assistant_message (content : string) : pydict :=
  [("role", PyStr "assistant"); ("content", PyStr content)].

Definition suggested_questions : list string :=
  ["Berapa total revenue dan margin bulan ini?";
   "Menu mana yang memiliki COGS paling tinggi?";
   "Apa tren penjualan dalam 7 hari terakhir?";
   "Kategori menu mana yang paling menguntungkan?";
   "Berikan rekomendasi untuk meningkatkan profitabilitas";
   "Analisis performa menu terlaris vs margin tertinggi";
   "Kapan waktu penjualan paling ramai?";
   "Menu mana yang perlu dioptimasi COGS-nya?"].

(** [display_chatbot], what a question does to the history: the question is
    appended, then the answer if [prepare_data_summary_for_ai] and
    [get_response] return one; [reply] is their outcome. *)
Definition ask (chat_history : list pydict) (question : string) (reply : py string)
  : list pydict :=
  let chat_history := (chat_history ++ [user_message question])%list in
  match reply with
  | Ok ai_response => (chat_history ++ [assistant_message ai_response])%list
  | Raise _ => chat_history
  end.

(** One run of [display_chatbot]: the button pressed, if any. *)
Inductive chat_event : Type :=
| Send (user_question : string) (reply : py string)
| Suggested (i : nat) (reply : py string)
| ClearHistory.

Definition display_chatbot (chat_history : list pydict) (ev : chat_event) : list pydict :=
  match ev with
  | Send user_question reply =>
      if Pd.truthy user_question then ask chat_history user_question reply
      else chat_history
  | Suggested i reply =>
      match nth_error suggested_questions i with
      | Some question => ask chat_history question reply
      | None => chat_history
      end
  | ClearHistory => []
  end.

(** A session: the history starts empty and every run handles one event. *)
Definition chat_session (evs : list chat_event) : list pydict :=
  fold_left display_chatbot evs [].

End App.


(* ------------------------------------------------------------------ *)
(** ** [pdf_exporter.py] *)

Module PDFExporter.

Definition is_empty {A : Type} (df : list A) : bool :=
  match df with
  | [] => true
  | _ => false
  end.

(** [_create_title_page] and [_create_executive_summary]:
    [(total_margin / total_revenue) * 100] and
    [self.data['COGS Total (%)'].mean()]. *)
Definition gross_margin_pct (data : DataFrame) : np_float :=
  let total_revenue := col_sum Total data in
  let total_margin := col_sum Margin data in
  Np.mul (Np.div total_margin total_revenue) 100.

Definition avg_cogs_pct (data : DataFrame) : np_float :=
  Np.mean (map COGS_Total_pct data).

(** [_create_title_page]: the rows of [metrics_data]. *)
Definition _create_title_page_metrics (data : DataFrame) : list (string * string) :=
  [("Metric", "Nilai");
   ("Total Revenue", "Rp " ++ Fmt.comma_0f (Finite (col_sum Total data)));
   ("Total Margin", "Rp " ++ Fmt.comma_0f (Finite (col_sum Margin data)));
   ("Gross Margin %", Fmt.dot_1f (gross_margin_pct data) ++ "%");
   ("Total Transaksi", Fmt.with_commas (Fmt.str_nat (List.length data)));
   ("Rata-rata COGS %", Fmt.dot_1f (avg_cogs_pct data) ++ "%")].

(** [_create_executive_summary]:
    [top_menu.iloc[0]['Menu'] if not top_menu.empty else 'N/A']. *)
Definition first_menu_or_na (t : MenuTable) : py string :=
  if negb (is_empty t) then r <- iloc0 t ;; Ok (menu r) else Ok "N/A".

(** [_get_top_category] *)
Definition _get_top_category (data : DataFrame) : py string :=
  let category_revenue := groupby_sum Menu_Category Total data in
  if negb (is_empty category_revenue) then idxmax category_revenue
  else Ok "N/A".

(** [_create_executive_summary], the three highlights: best seller, most
    profitable menu, strongest category. *)
Definition _create_executive_summary_highlights (data : DataFrame)
  : py (string * string * string) :=
  let top_menu := Analyzer.get_top_performing_menus data 1 in
  let most_profitable := Analyzer.get_most_profitable_menus data 1 in
  a <- first_menu_or_na top_menu ;;
  b <- first_menu_or_na most_profitable ;;
  c <- _get_top_category data ;;
  Ok (a, b, c).

(** [_generate_business_recommendations]; [menu_analysis] is
    [self.analyzer.get_comprehensive_menu_analysis(self.data)]. *)
Definition concentration (menu_analysis : MenuTable) (data : DataFrame) : np_float :=
  let total_revenue := col_sum Total data in
  let top_5_revenue := col_sum Total_Revenue (firstn 5 menu_analysis) in
  Np.mul (Np.div top_5_revenue total_revenue) 100.

Definition qty_of (r : MenuRow) : np_float := Finite (inject_Z (Total_Qty r)).

Definition low_performers (menu_analysis : MenuTable) : MenuTable :=
  filter (fun r => Np.lt (qty_of r)
                         (Np.quantile (qty_column menu_analysis) (1 # 5)))
         menu_analysis.

Definition is_high_margin_low_volume (menu_analysis : MenuTable) (r : MenuRow) : bool :=
  Np.gt (Finite (Margin_Percentage r))
        (Np.quantile (map Margin_Percentage menu_analysis) (4 # 5))
  && Np.lt (qty_of r) (Np.median (qty_column menu_analysis)).

Definition high_margin_low_volume (menu_analysis : MenuTable) : MenuTable :=
  filter (is_high_margin_low_volume menu_analysis) menu_analysis.

Definition diversify_title : string := "Diversifikasi Menu Portfolio".
Definition underperform_title : string := "Optimasi Menu Underperform".
Definition high_margin_title : string := "Marketing Focus Menu High-Margin".

Definition _generate_business_recommendations (menu_analysis : MenuTable) (data : DataFrame)
  : list pydict :=
  let recommendations : list pydict := [] in
  let concentration := concentration menu_analysis data in
  let recommendations :=
    if Np.gt concentration (Finite 60) then
      (recommendations ++
      [[("title", PyStr diversify_title);
        ("description",
         PyStr (Fmt.dot_1f concentration ++
                "% revenue berasal dari 5 menu teratas. Kembangkan menu lain untuk mengurangi risiko dependency."));
        ("potential_saving", PyStr "Stabilitas revenue jangka panjang")]])%list
    else recommendations in
  let low_performers := low_performers menu_analysis in
  let recommendations :=
    if (0 <? List.length low_performers)%nat then
      (recommendations ++
      [[("title", PyStr underperform_title);
        ("description",
         PyStr (Fmt.str_nat (List.length low_performers) ++
                " menu memiliki penjualan rendah. Pertimbangkan redesign, repricing, atau discontinue."));
        ("potential_saving", PyStr "Efisiensi operasional dan inventory")]])%list
    else recommendations in
  let high_margin_low_volume := high_margin_low_volume menu_analysis in
  let recommendations :=
    if (0 <? List.length high_margin_low_volume)%nat then
      (recommendations ++
      [[("title", PyStr high_margin_title);
        ("description",
         PyStr (Fmt.str_nat (List.length high_margin_low_volume) ++
                " menu memiliki margin tinggi tapi volume rendah. Tingkatkan visibility dan promosi."));
        ("potential_saving",
         PyStr ("Potensi peningkatan margin Rp " ++
                Fmt.comma_0f (Finite (col_sum Total_Margin high_margin_low_volume * 2))))]])%list
    else recommendations in
  recommendations.

(** [_create_recommendations]: [recommendations + general_recommendations]. *)
Definition all_recommendations (c : Analyzer.Config) (data : DataFrame) : list pydict :=
  Analyzer.get_cogs_optimization_recommendations c data ++
  _generate_business_recommendations (Analyzer.get_comprehensive_menu_analysis data) data.

(** [_create_financial_analysis]: [category_revenue], the sums per category
    and the two percentage columns. *)
Record CategoryRow : Type := mkCategoryRow {
  Category : string;
  cat_Total : Q;
  cat_Margin : Q;
  cat_COGS_Total : Q;
  cat_Qty : Z;
  Margin_Pct : np_float;
  COGS_Pct : np_float
}.

Definition category_row (k : string) (g : DataFrame) : CategoryRow :=
  {| Category := k;
     cat_Total := col_sum Total g;
     cat_Margin := col_sum Margin g;
     cat_COGS_Total := col_sum COGS_Total g;
     cat_Qty := col_sumZ Qty g;
     Margin_Pct := Np.mul (Np.div (col_sum Margin g) (col_sum Total g)) 100;
     COGS_Pct := Np.mul (Np.div (col_sum COGS_Total g) (col_sum Total g)) 100 |}.

Definition category_revenue (data : DataFrame) : list CategoryRow :=
  map (fun k => category_row k (filter (fun r => String.eqb (Menu_Category r) k) data))
      (group_keys String.eqb String.leb (map Menu_Category data)).

(** [(total_cogs / total_revenue * 100)] of [_create_financial_analysis] and
    [_create_cogs_analysis]. *)
Definition cogs_percentage (data : DataFrame) : np_float :=
  Np.mul (Np.div (col_sum COGS_Total data) (col_sum Total data)) 100.

(** [_create_financial_analysis]: [table_data], one row per category and the
    row of the totals. *)
Definition category_cells (row : CategoryRow) : list string :=
  [Category row;
   Fmt.comma_0f (Finite (cat_Total row));
   Fmt.dot_1f (Margin_Pct row) ++ "%";
   Fmt.dot_1f (COGS_Pct row) ++ "%";
   Fmt.comma_0f (Finite (inject_Z (cat_Qty row)))].

Definition total_cells (data : DataFrame) : list string :=
  ["TOTAL";
   Fmt.comma_0f (Finite (col_sum Total data));
   Fmt.dot_1f (gross_margin_pct data) ++ "%";
   Fmt.dot_1f (cogs_percentage data) ++ "%";
   Fmt.comma_0f (Finite (inject_Z (col_sumZ Qty data)))].

Definition _create_financial_analysis_table (data : DataFrame) : list (list string) :=
  ["Kategori"; "Revenue (Rp)"; "Margin (%)"; "COGS (%)"; "Qty Terjual"]
  :: app (map category_cells (category_revenue data)) [total_cells data].

(** [_create_financial_analysis], the daily performance of
    [daily_trend['Daily_Revenue']]: mean, best day, worst day and
    [(best - worst) / mean * 100]. *)
Definition avg_daily_revenue (daily_revenue : list Q) : np_float := Np.mean daily_revenue.
Definition best_day_revenue (daily_revenue : list Q) : np_float := Pd.max daily_revenue.
Definition worst_day_revenue (daily_revenue : list Q) : np_float := Pd.min daily_revenue.

Definition volatility (daily_revenue : list Q) : np_float :=
  Np.mul (Pd.divf (Pd.sub (best_day_revenue daily_revenue) (worst_day_revenue daily_revenue))
                  (avg_daily_revenue daily_revenue)) 100.

(** [_create_menu_analysis] and [_create_cogs_analysis]:
    [row['Menu'][:limit] + '...' if len(row['Menu']) > limit else row['Menu']]. *)
Definition menu_cell (limit : nat) (name : string) : string :=
  if (limit <? String.length name)%nat then substring 0 limit name ++ "..." else name.

(** [_create_menu_analysis]: [menu_table_data] and [profit_table_data]. *)
Definition _create_menu_analysis_top_table (top_menus : MenuTable) : list (list string) :=
  ["Rank"; "Menu"; "Qty Terjual"; "Revenue (Rp)"; "Margin (%)"]
  :: map (fun ir =>
            [Fmt.str_nat (fst ir);
             menu_cell 30 (menu (snd ir));
             Fmt.comma_0f (Finite (inject_Z (Total_Qty (snd ir))));
             Fmt.comma_0f (Finite (Total_Revenue (snd ir)));
             Fmt.dot_1f (Finite (Margin_Percentage (snd ir))) ++ "%"])
         (Pd.enumerate 1 top_menus).

Definition _create_menu_analysis_profit_table (profitable_menus : MenuTable)
  : list (list string) :=
  ["Rank"; "Menu"; "Margin/Unit (Rp)"; "Margin (%)"; "Total Qty"]
  :: map (fun ir =>
            [Fmt.str_nat (fst ir);
             menu_cell 30 (menu (snd ir));
             Fmt.comma_0f (Finite (Avg_Margin (snd ir)));
             Fmt.dot_1f (Finite (Margin_Percentage (snd ir))) ++ "%";
             Fmt.comma_0f (Finite (inject_Z (Total_Qty (snd ir))))])
         (Pd.enumerate 1 profitable_menus).

(** [_create_cogs_analysis]: [cogs_table_data], with the estimated saving of
    5 percent of the revenue. *)
Definition _create_cogs_analysis_table (high_cogs : MenuTable) : list (list string) :=
  ["Menu"; "COGS (%)"; "Total Revenue (Rp)"; "Potensi Optimasi"]
  :: map (fun row =>
            let potential_saving := Total_Revenue row * (5 # 100) in
            [menu_cell 35 (menu row);
             Fmt.dot_1f (Finite (Avg_COGS_Pct row)) ++ "%";
             Fmt.comma_0f (Finite (Total_Revenue row));
             "Rp " ++ Fmt.comma_0f (Finite potential_saving)])
         high_cogs.

(** [_create_executive_summary]: the judgement of the average COGS and the
    first focus area. *)
Definition summary_efficiency (avg_cogs_pct : np_float) : string :=
  if Np.lt avg_cogs_pct (Finite 30) then "efisiensi yang baik"
  else "area yang perlu optimasi".

Definition summary_focus (avg_cogs_pct : np_float) : string :=
  if Np.gt avg_cogs_pct (Finite 25) then "Optimasi COGS untuk meningkatkan margin"
  else "Mempertahankan efisiensi COGS".

(** [_create_cogs_analysis]: the two lines of the interpretation. *)
Definition cogs_interpretation (avg_cogs_pct : np_float) : string :=
  if Pd.le (Finite 20) avg_cogs_pct && Pd.le avg_cogs_pct (Finite 30)
  then "berada dalam range ideal (20-30%)"
  else if Np.gt avg_cogs_pct (Finite 30) then "perlu optimasi"
  else "sangat efisien".

Definition cogs_focus (avg_cogs_pct : np_float) : string :=
  if Np.gt avg_cogs_pct (Finite 25) then "Fokus pada optimasi supplier dan porsi"
  else "Pertahankan efisiensi saat ini".

(** [_create_recommendations]: the values read from one entry,
    [rec['title']], [rec['description']] and [rec['potential_saving']], with
    its number; [None] stands for the KeyError of a missing key. *)
Definition rec_fields (i : nat) (rec : pydict) : option (nat * pyval * pyval * pyval) :=
  match dict_get "title" rec, dict_get "description" rec, dict_get "potential_saving" rec with
  | Some t, Some d, Some p => Some (i, t, d, p)
  | _, _, _ => None
  end.

Fixpoint all_or_none {A : Type} (l : list (option A)) : option (list A) :=
  match l with
  | [] => Some []
  | None :: _ => None
  | Some a :: l' =>
      match all_or_none l' with
      | Some r => Some (a :: r)
      | None => None
      end
  end.

Definition _create_recommendations_entries (all_recommendations : list pydict)
  : option (list (nat * pyval * pyval * pyval)) :=
  all_or_none (map (fun ir => rec_fields (fst ir) (snd ir))
                   (Pd.enumerate 1 all_recommendations)).

End PDFExporter.


(* ------------------------------------------------------------------ *)
(** ** Vocabulary of the properties *)

(** The entries of a recommendation list that carry a given title. *)
Definition has_title (t : string) (d : pydict) : bool :=
  match dict_get "title" d with
  | Some (PyStr s) => String.eqb s t
  | _ => false
  end.

Definition count_title (t : string) (recs : list pydict) : nat :=
  List.length (filter (has_title t) recs).

(** A record with exactly the three string fields, in the order written. *)
Definition well_formed_recommendation (d : pydict) : Prop :=
  map fst d = ["title"; "description"; "potential_saving"]
  /\ forallb is_str (map snd d) = true.



(** The same specification with another branch parameter. *)
Definition with_branch (f : Analyzer.FilterSpec) (sel : option string) : Analyzer.FilterSpec :=
  Analyzer.mkFilter (Analyzer.date_start f) (Analyzer.date_end f) (Analyzer.categories f) sel.

(** Summed revenue of one category. *)
Definition category_total (data : DataFrame) (c : string) : Q :=
  col_sum Total (filter (fun r => String.eqb (Menu_Category r) c) data).

(** The dict that the concentration rule appends. *)
Definition diversify_entry (c : np_float) : pydict :=
  [("title", PyStr PDFExporter.diversify_title);
   ("description",
    PyStr (Fmt.dot_1f c ++
           "% revenue berasal dari 5 menu teratas. Kembangkan menu lain untuk mengurangi risiko dependency."));
   ("potential_saving", PyStr "Stabilitas revenue jangka panjang")].

Definition underperform_entry (n : nat) : pydict :=
  [("title", PyStr PDFExporter.underperform_title);
   ("description",
    PyStr (Fmt.str_nat n ++
           " menu memiliki penjualan rendah. Pertimbangkan redesign, repricing, atau discontinue."));
   ("potential_saving", PyStr "Efisiensi operasional dan inventory")].

Definition high_margin_entry (n : nat) (combined_margin : Q) : pydict :=
  [("title", PyStr PDFExporter.high_margin_title);
   ("description",
    PyStr (Fmt.str_nat n ++
           " menu memiliki margin tinggi tapi volume rendah. Tingkatkan visibility dan promosi."));
   ("potential_saving",
    PyStr ("Potensi peningkatan margin Rp " ++ Fmt.comma_0f (Finite (combined_margin * 2))))].

(** What each of the three rules of [_generate_business_recommendations]
    contributes. *)
Definition rule_concentration (menu_analysis : MenuTable) (data : DataFrame) : list pydict :=
  if Np.gt (PDFExporter.concentration menu_analysis data) (Finite 60)
  then [diversify_entry (PDFExporter.concentration menu_analysis data)]
  else [].

Definition rule_low_performers (menu_analysis : MenuTable) : list pydict :=
  match PDFExporter.low_performers menu_analysis with
  | [] => []
  | low => [underperform_entry (List.length low)]
  end.

Definition rule_high_margin (menu_analysis : MenuTable) : list pydict :=
  match PDFExporter.high_margin_low_volume menu_analysis with
  | [] => []
  | sel => [high_margin_entry (List.length sel) (col_sum Total_Margin sel)]
  end.

(** Six sales of six menus, total revenue 210; the five best sellers make 209. *)
Definition ranked_sales : DataFrame :=
  [mkRow 0 "Nasi Goreng" "Makanan" "Pusat" 1 100 100 10 10 90;
   mkRow 3600 "Mie Ayam" "Makanan" "Pusat" 7 10 70 21 30 49;
   mkRow 90000 "Es Jeruk" "Minuman" "Pusat" 3 10 30 9 30 21;
   mkRow 90000 "Kerupuk" "Makanan" "Pusat" 7 1 7 1 (100 # 7) 6;
   mkRow 200000 "Teh Manis" "Minuman" "Pusat" 1 2 2 1 50 1;
   mkRow 200000 "Air Mineral" "Minuman" "Pusat" 1 1 1 1 100 0].

(** The same sales and one more from a second branch. *)
Definition two_branch_sales : DataFrame :=
  mkRow 100000 "Mie Ayam" "Makanan" "Cabang Timur" 2 10 20 6 30 14 :: ranked_sales.

Definition pusat_filter : Analyzer.FilterSpec :=
  Analyzer.mkFilter 0 2 ["Makanan"; "Minuman"] (Some "Pusat").

(** Three sales of one menu: quantities 2, 3, 5 at price 10, COGS 30 percent. *)
Definition one_menu_sales : DataFrame :=
  [mkRow 0 "A" "Makanan" "Pusat" 2 10 20 6 30 14;
   mkRow 60 "A" "Makanan" "Pusat" 3 10 30 9 30 21;
   mkRow 120 "A" "Makanan" "Pusat" 5 10 50 15 30 35].

(** A sale at price zero: revenue 0, a cost of 5. *)
Definition giveaway : Row :=
  mkRow 0 "Es Teh" "Minuman" "Pusat" 1 0 0 5 0 (-5).

(** Equal float64 values: the same infinity, both NaN, or rationals of the
    same value. *)
Definition np_eq (x y : np_float) : Prop :=
  match x, y with
  | Finite a, Finite b => a == b
  | PosInf, PosInf | NegInf, NegInf | NaN, NaN => True
  | _, _ => False
  end.

(** The margin of every row is its revenue less its cost. *)
Definition margin_identity (data : DataFrame) : Prop :=
  forall r, In r data -> Margin r == Total r - COGS_Total r.

(** Sums of a column of a derived table. *)
Definition total_of {A : Type} (f : A -> Q) (t : list A) : Q := Np.sum (map f t).
Definition totalZ_of {A : Type} (f : A -> Z) (t : list A) : Z := fold_right Z.add 0%Z (map f t).

(** No event of a chat session clears the history. *)
Definition never_cleared (evs : list App.chat_event) : Prop :=
  forall ev, In ev evs -> ev <> App.ClearHistory.

(** Whether a message is a question, and whether a history ends with one
    ([after_question] when it has no message). *)
Definition is_question (m : pydict) : bool :=
  match dict_get "role" m with
  | Some (PyStr r) => String.eqb r "user"
  | _ => false
  end.

Fixpoint ends_with_question (after_question : bool) (h : list pydict) : bool :=
  match h with
  | [] => after_question
  | m :: h' => ends_with_question (is_question m) h'
  end.

(** A history in which every message is a question with a text or an answer
    that comes directly after a question; [after_question] tells whether the
    message before the first one is a question. *)
Fixpoint conversation (after_question : bool) (h : list pydict) : Prop :=
  match h with
  | [] => True
  | m :: h' =>
      (exists q, m = App.user_message q /\ q <> "" /\ conversation true h')
      \/ (exists a, m = App.assistant_message a /\ after_question = true
                    /\ conversation false h')
  end.

(** Six menus, a sale each, total revenue 100.  By menu name the best seller
    by revenue, "Nasi Goreng" with 56, comes last: the five menus before it
    make 44, the five best sellers by revenue 95. *)
Definition late_star_sales : DataFrame :=
  [mkRow 0 "Nasi Goreng" "Makanan" "Pusat" 7 8 56 42 75 14;
   mkRow 60 "Ayam Bakar" "Makanan" "Pusat" 1 12 12 3 25 9;
   mkRow 120 "Bakso" "Makanan" "Pusat" 2 5 10 5 50 5;
   mkRow 180 "Cap Cay" "Makanan" "Pusat" 3 3 9 6 (200 # 3) 3;
   mkRow 240 "Dawet" "Minuman" "Pusat" 4 2 8 6 75 2;
   mkRow 300 "Es Teh" "Minuman" "Pusat" 5 1 5 4 80 1].

(** The value at position [q] of the values [xs]: with the values in
    ascending order and numbered from 0, the position [h = (n - 1) * q] lies
    between two neighbours, and the value is interpolated linearly between
    them. *)
Definition is_percentile (xs : list Q) (q v : Q) : Prop :=
  exists s : list Q,
    Permutation s xs /\ StronglySorted Qle s
    /\ let h := inject_Z (Z.of_nat (List.length xs - 1)) * q in
       let below := nth (Z.to_nat (Qfloor h)) s 0 in
       let above := nth (Z.to_nat (Qceiling h)) s 0 in
       v == below + (above - below) * (h - inject_Z (Qfloor h)).

(** The median of the values [xs]: the middle one in ascending order, or the
    mean of the two middle ones when their number is even. *)
Definition is_median (xs : list Q) (v : Q) : Prop :=
  exists s : list Q,
    Permutation s xs /\ StronglySorted Qle s
    /\ let n := List.length xs in
       if Nat.even n then v == (nth (n / 2 - 1) s 0 + nth (n / 2) s 0) / 2
       else v == nth (n / 2) s 0.

(** Quantities whose sum stays within int64, whatever their signs. *)
Definition quantities_fit (data : DataFrame) : Prop :=
  (totalZ_of (fun r => Z.abs (Qty r)) data < 2 ^ 63)%Z.

(* ------------------------------------------------------------------ *)
(** ** Proof steps *)

Ltac conjuncts := repeat match goal with |- _ /\ _ => split end.

Ltac one_record :=
  first [ apply Forall_nil
        | apply Forall_cons; [split; reflexivity | apply Forall_nil] ].

Ltac by_rule_condition :=
  match goal with
  | |- context [if ?b then _ else _] => destruct b
  | |- context [match ?l with [] => _ | _ :: _ => _ end] => destruct l
  end.

Ltac by_order :=
  repeat match goal with
         | H : Qle_bool _ _ = true |- _ => apply Qle_bool_iff in H
         | H : Qle_bool ?a ?b = false |- _ =>
             let Hlt := fresh "Hlt" in
             assert (Hlt : b < a)
               by (apply Qnot_le_lt; intros Hle; apply Qle_bool_iff in Hle; congruence);
             clear H
         end.

(* ------------------------------------------------------------------ *)
(** ** The model on sample data *)

Example comma_0f_rounds_half_even : Fmt.comma_0f (Finite (2469135 # 2)) = "1,234,568".
Proof. vm_compute. reflexivity. Qed.

Example dot_1f_keeps_sign : Fmt.dot_1f (Finite (-1 # 25)) = "-0.0".
Proof. vm_compute. reflexivity. Qed.

Example quantile_interpolates :
  match Np.quantile [5; 1; 4; 2; 3] (4 # 5), Np.median [1; 7; 3; 4] with
  | Finite a, Finite b => a == 21 # 5 /\ b == 7 # 2
  | _, _ => False
  end.
Proof. vm_compute. split; reflexivity. Qed.

Example one_menu_ranking :
  map (fun r => (menu r, Total_Qty r, Total_Revenue r))
      (Analyzer.get_top_performing_menus one_menu_sales 1) = [("A", 10%Z, 100)]
  /\ Analyzer.calculate_cogs_efficiency one_menu_sales == 70.
Proof. split; vm_compute; reflexivity. Qed.

Example ranked_sales_report :
  PDFExporter._generate_business_recommendations
    (Analyzer.get_comprehensive_menu_analysis ranked_sales) ranked_sales
  = [diversify_entry (Finite (20800 # 210)); high_margin_entry 1 90]
  /\ PDFExporter._create_executive_summary_highlights ranked_sales
     = Ok ("Kerupuk", "Nasi Goreng", "Makanan").
Proof. split; vm_compute; reflexivity. Qed.

Example one_category_selected :
  option_map (map Menu)
    (match App.filtered_data two_branch_sales (0, 1)%Z ["Makanan"] "Pusat" with
     | Ok d => Some d
     | Raise _ => None
     end)
  = Some ["Nasi Goreng"; "Mie Ayam"; "Kerupuk"].
Proof. vm_compute. reflexivity. Qed.

Example category_table_of_ranked_sales :
  PDFExporter._create_financial_analysis_table ranked_sales
  = [["Kategori"; "Revenue (Rp)"; "Margin (%)"; "COGS (%)"; "Qty Terjual"];
     ["Makanan"; "177"; "81.9%"; "18.1%"; "15"];
     ["Minuman"; "33"; "66.7%"; "33.3%"; "5"];
     ["TOTAL"; "210"; "79.5%"; "20.5%"; "20"]].
Proof. vm_compute. reflexivity. Qed.

Example top_table_of_ranked_sales :
  PDFExporter._create_menu_analysis_top_table (Analyzer.get_top_performing_menus ranked_sales 2)
  = [["Rank"; "Menu"; "Qty Terjual"; "Revenue (Rp)"; "Margin (%)"];
     ["1"; "Kerupuk"; "7"; "7"; "85.7%"];
     ["2"; "Mie Ayam"; "7"; "70"; "70.0%"]]
  /\ PDFExporter.menu_cell 5 "Nasi Goreng" = "Nasi ...".
Proof. split; vm_compute; reflexivity. Qed.

Example best_menus_keep_the_order_of_ties :
  map menu (App.display_menu_analysis_top_volume
              (Analyzer.get_comprehensive_menu_analysis ranked_sales))
  = ["Kerupuk"; "Mie Ayam"; "Es Jeruk"; "Air Mineral"; "Nasi Goreng"; "Teh Manis"].
Proof. vm_compute. reflexivity. Qed.

Example a_total_quantity_beyond_int64 :
  let sales := [mkRow 0 "A" "Makanan" "Pusat" (2 ^ 62) 1 1 0 0 1;
                mkRow 86400 "A" "Makanan" "Pusat" (2 ^ 62) 1 1 0 0 1] in
  option_map (fun d => (App.detail_qty d, map (fun p => fst (snd p)) (App.detail_daily d)))
             (App.display_menu_detail sales (Some "A"))
  = Some ((-9223372036854775808)%Z, [4611686018427387904%Z; 4611686018427387904%Z]).
Proof. vm_compute. reflexivity. Qed.

Example a_failed_request_leaves_the_question :
  App.chat_session [App.Send "Halo" (Ok "Hai"); App.Send "" (Ok "?");
                    App.Suggested 6 (Raise ValueError); App.Suggested 8 (Ok "?")]
  = [App.user_message "Halo"; App.assistant_message "Hai";
     App.user_message "Kapan waktu penjualan paling ramai?"].
Proof. vm_compute. reflexivity. Qed.

Example judgements_at_thirty :
  PDFExporter.summary_efficiency (Finite 30) = "area yang perlu optimasi"
  /\ PDFExporter.cogs_interpretation (Finite 30) = "berada dalam range ideal (20-30%)"
  /\ PDFExporter.cogs_interpretation NaN = "sangat efisien".
Proof. conjuncts; vm_compute; reflexivity. Qed.

(* ------------------------------------------------------------------ *)
(** ** Lists, distinct values, group labels *)

Lemma filter_all_true {A : Type} (f : A -> bool) (l : list A) :
  (forall x, In x l -> f x = true) -> filter f l = l.
Proof.
  induction l as [|a l IH]; intros H; simpl.
  - reflexivity.
  - rewrite (H a (or_introl eq_refl)). f_equal. apply IH.
    intros x Hx. apply H. now right.
Qed.

Lemma filter_all_false {A : Type} (f : A -> bool) (l : list A) :
  (forall x, In x l -> f x = false) -> filter f l = [].
Proof.
  induction l as [|a l IH]; intros H; simpl.
  - reflexivity.
  - rewrite (H a (or_introl eq_refl)). apply IH.
    intros x Hx. apply H. now right.
Qed.

Section DistinctValues.

Variable K : Type.
Variable eqb : K -> K -> bool.
Hypothesis eqb_eq : forall x y, eqb x y = true <-> x = y.

Lemma In_unique (l : list K) (x : K) : In x (unique eqb l) <-> In x l.
Proof.
  induction l as [|a l IH]; simpl.
  - tauto.
  - rewrite filter_In, IH. split.
    + intros [H | [H _]]; auto.
    + intros [H | H]; auto.
      destruct (eqb x a) eqn:E.
      * left. symmetry. now apply eqb_eq.
      * right. split; auto.
Qed.

Lemma unique_constant (l : list K) (b : K) :
  l <> [] -> (forall x, In x l -> x = b) -> unique eqb l = [b].
Proof.
  destruct l as [|a l]; intros Hne Hall.
  - congruence.
  - simpl. rewrite (Hall a (or_introl eq_refl)). f_equal.
    apply filter_all_false. intros x Hx.
    rewrite In_unique in Hx.
    rewrite (Hall x (or_intror Hx)).
    apply negb_false_iff. now apply eqb_eq.
Qed.

Lemma unique_singleton (l : list K) :
  List.length (unique eqb l) = 1%nat -> exists b, l <> [] /\ forall x, In x l -> x = b.
Proof.
  intros Hlen.
  destruct (unique eqb l) as [|b [|c u]] eqn:E; simpl in Hlen; try discriminate.
  exists b. split.
  - intros ->. discriminate.
  - intros x Hx. rewrite <- In_unique, E in Hx.
    destruct Hx as [Hx | []]. now symmetry.
Qed.

End DistinctValues.

Section GroupLabels.

Variable K : Type.
Variable leb : K -> K -> bool.

Lemma In_insert_key (a x : K) (l : list K) :
  In x (insert_key leb a l) <-> x = a \/ In x l.
Proof.
  induction l as [|b l IH]; simpl.
  - intuition.
  - destruct (leb a b); simpl; rewrite ?IH; intuition.
Qed.

Lemma In_sort_keys (l : list K) (x : K) : In x (sort_keys leb l) <-> In x l.
Proof.
  induction l as [|a l IH]; simpl.
  - tauto.
  - fold (sort_keys leb l). rewrite In_insert_key, IH. intuition.
Qed.

End GroupLabels.

Lemma In_group_keys (K : Type) (eqb leb : K -> K -> bool)
    (eqb_eq : forall x y, eqb x y = true <-> x = y) (l : list K) (x : K) :
  In x (group_keys eqb leb l) <-> In x l.
Proof. unfold group_keys. now rewrite In_sort_keys, In_unique. Qed.

(* ------------------------------------------------------------------ *)
(** ** The filter *)

Lemma one_branch_iff (df : DataFrame) :
  List.length (Analyzer.get_unique_branches df) = 1%nat
  <-> exists b, df <> [] /\ forall r, In r df -> Branch r = b.
Proof.
  unfold Analyzer.get_unique_branches. split.
  - intros H. apply (unique_singleton _ _ String.eqb_eq) in H.
    destruct H as [b [Hne Hall]]. exists b. split.
    + intros ->. now apply Hne.
    + intros r Hr. apply Hall. now apply in_map.
  - intros [b [Hne Hall]].
    rewrite (unique_constant _ _ String.eqb_eq _ b); auto.
    + destruct df; simpl; congruence.
    + intros x Hx. apply in_map_iff in Hx. destruct Hx as [r [<- Hr]]. auto.
Qed.

Lemma several_branches (df : DataFrame) (r1 r2 : Row) :
  In r1 df -> In r2 df -> Branch r1 <> Branch r2 ->
  Nat.eqb (List.length (Analyzer.get_unique_branches df)) 1 = false.
Proof.
  intros H1 H2 Hne. apply Nat.eqb_neq. intros Hlen.
  apply one_branch_iff in Hlen. destruct Hlen as [b [_ Hall]].
  apply Hne. now rewrite (Hall r1 H1), (Hall r2 H2).
Qed.

Lemma branch_pass_stable (df : DataFrame) (f : Analyzer.FilterSpec) (keep : Row -> bool) (r : Row) :
  In r df -> keep r = true ->
  (forall x, In x df -> keep x = true -> Analyzer.branch_pass df f x = true) ->
  Analyzer.branch_pass (filter keep df) f r = true.
Proof.
  intros Hr Hk Hall. unfold Analyzer.branch_pass.
  destruct (Nat.eqb (List.length (Analyzer.get_unique_branches (filter keep df))) 1) eqn:E1; auto.
  specialize (Hall r Hr Hk). unfold Analyzer.branch_pass in Hall.
  destruct (Nat.eqb (List.length (Analyzer.get_unique_branches df)) 1) eqn:E; auto.
  exfalso. apply Nat.eqb_eq in E. apply Nat.eqb_neq in E1. apply E1.
  apply one_branch_iff in E. destruct E as [b [_ Hb]].
  apply one_branch_iff. exists b. split.
  - intros Hnil. assert (Hin : In r (filter keep df)) by (apply filter_In; auto).
    rewrite Hnil in Hin. exact Hin.
  - intros x Hx. apply filter_In in Hx. apply Hb. tauto.
Qed.

(** C8. Filtering is idempotent: filtering the filtered dataset again with
    the same specification gives the same dataset, and a rejected
    specification is rejected both times. *)
Theorem apply_filters_idempotent (df : DataFrame) (f : Analyzer.FilterSpec) :
  (d <- Analyzer.apply_filters df f ;; Analyzer.apply_filters d f)
  = Analyzer.apply_filters df f.
Proof.
  unfold Analyzer.apply_filters.
  destruct (Analyzer.date_end f <? Analyzer.date_start f)%Z eqn:E; simpl.
  - reflexivity.
  - f_equal.
    apply filter_all_true. intros r Hr.
    apply filter_In in Hr. destruct Hr as [Hr Hp].
    apply andb_true_iff in Hp. destruct Hp as [Hdc Hb].
    rewrite Hdc. simpl.
    apply branch_pass_stable; auto.
    + now rewrite Hdc, Hb.
    + intros x _ Hx. apply andb_true_iff in Hx. tauto.
Qed.

Lemma no_category_no_row (df : DataFrame) (f : Analyzer.FilterSpec) :
  Analyzer.categories f = [] -> (Analyzer.date_start f <= Analyzer.date_end f)%Z ->
  Analyzer.apply_filters df f = Ok [].
Proof.
  intros Hc Hd. unfold Analyzer.apply_filters.
  destruct (Analyzer.date_end f <? Analyzer.date_start f)%Z eqn:E.
  - apply Z.ltb_lt in E. lia.
  - f_equal. apply filter_all_false. intros r _.
    unfold Analyzer.category_pass. rewrite Hc. simpl. now rewrite andb_false_r.
Qed.

Lemma branch_eqb_true (b : string) (sel : option string) :
  Analyzer.branch_eqb b sel = true <-> sel = Some b.
Proof.
  destruct sel as [s|]; simpl.
  - rewrite String.eqb_eq. split; [intros -> | intros [= ->]]; reflexivity.
  - split; discriminate.
Qed.

Lemma selected_branch_single (df : DataFrame) (b selectbox : string) :
  df <> [] -> (forall r, In r df -> Branch r = b) ->
  App.selected_branch (Analyzer.get_unique_branches df) selectbox = Some b.
Proof.
  intros Hne Hall. unfold Analyzer.get_unique_branches.
  rewrite (unique_constant _ _ String.eqb_eq _ b).
  - reflexivity.
  - destruct df; simpl; congruence.
  - intros x Hx. apply in_map_iff in Hx. destruct Hx as [r [<- Hr]]. auto.
Qed.

(** C6. With exactly one distinct branch in the data every row passes the
    branch criterion and the branch parameter has no effect on the filter (nor
    has the selector of [main], which is not read); with more than one, a
    row passes the criterion exactly when its branch is the selected one, and
    the filtered dataset holds exactly the rows of the selected branch that
    pass the date and category criteria. *)
Theorem branch_filter_rule (df : DataFrame) (f : Analyzer.FilterSpec) :
  ((exists b, df <> [] /\ forall r, In r df -> Branch r = b) ->
     (forall r, In r df -> Analyzer.branch_pass df f r = true)
     /\ (forall sel, Analyzer.apply_filters df (with_branch f sel) = Analyzer.apply_filters df f)
     /\ (forall range cats s1 s2,
           App.filtered_data df range cats s1 = App.filtered_data df range cats s2))
  /\
  ((exists r1 r2, In r1 df /\ In r2 df /\ Branch r1 <> Branch r2) ->
     (forall r, In r df ->
        (Analyzer.branch_pass df f r = true <-> Analyzer.branch f = Some (Branch r)))
     /\ (forall out, Analyzer.apply_filters df f = Ok out ->
         forall r, In r out <->
           In r df /\ Analyzer.date_pass f r = true /\ Analyzer.category_pass f r = true
           /\ Analyzer.branch f = Some (Branch r))).
Proof.
  split.
  - intros Hone.
    assert (Hlen : Nat.eqb (List.length (Analyzer.get_unique_branches df)) 1 = true).
    { apply Nat.eqb_eq. now apply one_branch_iff. }
    split; [|split].
    + intros r _. unfold Analyzer.branch_pass. now rewrite Hlen.
    + intros sel. unfold Analyzer.apply_filters, Analyzer.branch_pass. rewrite Hlen.
      reflexivity.
    + intros range cats s1 s2. destruct Hone as [b [Hne Hall]].
      unfold App.filtered_data.
      now rewrite !(selected_branch_single df b) by assumption.
  - intros [r1 [r2 [H1 [H2 Hne]]]].
    pose proof (several_branches df r1 r2 H1 H2 Hne) as Hlen.
    assert (Hpass : forall r, Analyzer.branch_pass df f r = true
                              <-> Analyzer.branch f = Some (Branch r)).
    { intros r. unfold Analyzer.branch_pass. rewrite Hlen. apply branch_eqb_true. }
    split.
    + intros r _. apply Hpass.
    + intros out Hout r. unfold Analyzer.apply_filters in Hout.
      destruct (Analyzer.date_end f <? Analyzer.date_start f)%Z; [discriminate|].
      injection Hout as <-.
      rewrite filter_In, !andb_true_iff, Hpass. tauto.
Qed.

Lemma branch_filter_rule_witness :
  (forall r, In r ranked_sales -> Analyzer.branch_pass ranked_sales pusat_filter r = true)
  /\ (forall r, In r two_branch_sales ->
        (Analyzer.branch_pass two_branch_sales pusat_filter r = true
         <-> Analyzer.branch pusat_filter = Some (Branch r))).
Proof.
  split.
  - apply (proj1 (branch_filter_rule ranked_sales pusat_filter)).
    exists "Pusat". split; [discriminate|].
    intros r H. simpl in H.
    repeat (destruct H as [<- | H]; [reflexivity|]). destruct H.
  - apply (proj2 (branch_filter_rule two_branch_sales pusat_filter)).
    exists (hd giveaway two_branch_sales), (hd giveaway ranked_sales).
    split; [now left | split; [right; now left | discriminate]].
Defined.

(* ------------------------------------------------------------------ *)
(** ** The strongest category *)

Lemma Qlt_bool_true (a b : Q) : Np.Qlt_bool a b = true <-> a < b.
Proof.
  unfold Np.Qlt_bool. rewrite negb_true_iff. split.
  - intros H. apply Qnot_le_lt. intros Hle. apply Qle_bool_iff in Hle. congruence.
  - intros H. destruct (Qle_bool b a) eqn:E; auto.
    apply Qle_bool_iff in E. exfalso. now apply (Qlt_not_le a b).
Qed.

Lemma Qlt_bool_false (a b : Q) : Np.Qlt_bool a b = false <-> b <= a.
Proof.
  unfold Np.Qlt_bool. rewrite negb_false_iff. apply Qle_bool_iff.
Qed.

Lemma idxmax_from_max (best : string * Q) (s : list (string * Q)) :
  exists v, In (idxmax_from best s, v) (best :: s)
            /\ forall kv, In kv (best :: s) -> snd kv <= v.
Proof.
  revert best. induction s as [|kv s IH]; intros best.
  - exists (snd best). split.
    + left. destruct best; reflexivity.
    + intros kv [<- | []]. apply Qle_refl.
  - cbn [idxmax_from].
    destruct (IH (if Np.Qlt_bool (snd best) (snd kv) then kv else best)) as [v [Hin Hmax]].
    exists v. split.
    + destruct Hin as [H | H].
      * destruct (Np.Qlt_bool (snd best) (snd kv)); [right; left | left]; exact H.
      * right; right; exact H.
    + intros kv' [<- | [<- | H]].
      * destruct (Np.Qlt_bool (snd best) (snd kv)) eqn:E.
        -- apply Qlt_bool_true in E. apply Qlt_le_weak in E.
           eapply Qle_trans; [exact E|]. apply Hmax. now left.
        -- apply Hmax. now left.
      * destruct (Np.Qlt_bool (snd best) (snd kv)) eqn:E.
        -- apply Hmax. now left.
        -- apply Qlt_bool_false in E.
           eapply Qle_trans; [exact E|]. apply Hmax. now left.
      * apply Hmax. now right.
Qed.

Lemma In_groupby_sum (key : Row -> string) (val : Row -> Q) (df : DataFrame)
    (k : string) (v : Q) :
  In (k, v) (groupby_sum key val df)
  <-> (exists r, In r df /\ key r = k)
      /\ v = col_sum val (filter (fun r => String.eqb (key r) k) df).
Proof.
  unfold groupby_sum. rewrite in_map_iff. split.
  - intros [k' [[= <- <-] Hk]].
    rewrite (In_group_keys _ String.eqb String.leb String.eqb_eq) in Hk.
    rewrite in_map_iff in Hk. destruct Hk as [r [Hr Hin]]. split; eauto.
  - intros [[r [Hr <-]] ->]. exists (key r). split; auto.
    rewrite (In_group_keys _ String.eqb String.leb String.eqb_eq). now apply in_map.
Qed.

(** C9. [_get_top_category] never raises; on a dataset without rows it
    returns "N/A", otherwise a category of the dataset whose summed revenue
    is at least that of every category of the dataset. *)
Theorem top_category_is_maximal (data : DataFrame) :
  match data with
  | [] => PDFExporter._get_top_category data = Ok "N/A"
  | _ :: _ =>
      exists c, PDFExporter._get_top_category data = Ok c
                /\ (exists r, In r data /\ Menu_Category r = c)
                /\ forall r, In r data ->
                     category_total data (Menu_Category r) <= category_total data c
  end.
Proof.
  destruct data as [|r0 data'] eqn:Hd.
  - reflexivity.
  - rewrite <- Hd. unfold PDFExporter._get_top_category.
    assert (H0 : In (Menu_Category r0, category_total data (Menu_Category r0))
                    (groupby_sum Menu_Category Total data)).
    { apply In_groupby_sum. split; [|reflexivity].
      exists r0. split; [|reflexivity]. rewrite Hd. now left. }
    destruct (groupby_sum Menu_Category Total data) as [|kv s] eqn:Hs; [destruct H0|].
    cbn [PDFExporter.is_empty negb idxmax].
    destruct (idxmax_from_max kv s) as [v [Hin Hmax]].
    exists (idxmax_from kv s). split; [reflexivity|].
    rewrite <- Hs in Hin, Hmax.
    apply In_groupby_sum in Hin. destruct Hin as [Hrow Hv]. split; [exact Hrow|].
    intros r Hr. fold (category_total data (idxmax_from kv s)) in Hv. rewrite <- Hv.
    apply (Hmax (Menu_Category r, category_total data (Menu_Category r))).
    apply In_groupby_sum. split; [eauto | reflexivity].
Qed.

(* ------------------------------------------------------------------ *)
(** ** The business recommendations of the report *)

Lemma recommendations_by_rule (ma : MenuTable) (data : DataFrame) :
  PDFExporter._generate_business_recommendations ma data
  = (rule_concentration ma data ++ rule_low_performers ma ++ rule_high_margin ma)%list.
Proof.
  unfold PDFExporter._generate_business_recommendations, rule_concentration,
    rule_low_performers, rule_high_margin.
  cbv zeta.
  destruct (Np.gt (PDFExporter.concentration ma data) (Finite 60));
    destruct (PDFExporter.low_performers ma) as [|l0 low];
    destruct (PDFExporter.high_margin_low_volume ma) as [|h0 sel];
    reflexivity.
Qed.

Lemma count_title_app (t : string) (a b : list pydict) :
  count_title t (a ++ b) = (count_title t a + count_title t b)%nat.
Proof. unfold count_title. now rewrite filter_app, length_app. Qed.

Lemma count_rule_concentration (t : string) (ma : MenuTable) (data : DataFrame) :
  count_title t (rule_concentration ma data)
  = if Np.gt (PDFExporter.concentration ma data) (Finite 60) && String.eqb PDFExporter.diversify_title t
    then 1%nat else 0%nat.
Proof.
  unfold rule_concentration.
  destruct (Np.gt (PDFExporter.concentration ma data) (Finite 60)); [|reflexivity].
  unfold count_title. cbn [filter has_title dict_get diversify_entry String.eqb Ascii.eqb Bool.eqb andb].
  now destruct (String.eqb PDFExporter.diversify_title t).
Qed.

Lemma count_rule_low_performers (t : string) (ma : MenuTable) :
  count_title t (rule_low_performers ma)
  = match PDFExporter.low_performers ma with
    | [] => 0%nat
    | _ => if String.eqb PDFExporter.underperform_title t then 1%nat else 0%nat
    end.
Proof.
  unfold rule_low_performers.
  destruct (PDFExporter.low_performers ma) as [|l0 low]; [reflexivity|].
  unfold count_title. cbn [filter has_title dict_get underperform_entry String.eqb Ascii.eqb Bool.eqb andb].
  now destruct (String.eqb PDFExporter.underperform_title t).
Qed.

Lemma count_rule_high_margin (t : string) (ma : MenuTable) :
  count_title t (rule_high_margin ma)
  = match PDFExporter.high_margin_low_volume ma with
    | [] => 0%nat
    | _ => if String.eqb PDFExporter.high_margin_title t then 1%nat else 0%nat
    end.
Proof.
  unfold rule_high_margin.
  destruct (PDFExporter.high_margin_low_volume ma) as [|h0 sel]; [reflexivity|].
  unfold count_title. cbn [filter has_title dict_get high_margin_entry String.eqb Ascii.eqb Bool.eqb andb].
  now destruct (String.eqb PDFExporter.high_margin_title t).
Qed.

Lemma count_title_recommendations (t : string) (ma : MenuTable) (data : DataFrame) :
  count_title t (PDFExporter._generate_business_recommendations ma data)
  = (count_title t (rule_concentration ma data)
     + count_title t (rule_low_performers ma)
     + count_title t (rule_high_margin ma))%nat.
Proof.
  rewrite recommendations_by_rule, !count_title_app. lia.
Qed.

Lemma In_skipn_In {A : Type} (n : nat) (l : list A) (x : A) : In x (skipn n l) -> In x l.
Proof.
  intros H. rewrite <- (firstn_skipn n l). apply in_or_app. now right.
Qed.

Lemma concentration_reading (ma : MenuTable) (data : DataFrame) :
  0 < col_sum Total data ->
  (Np.gt (PDFExporter.concentration ma data) (Finite 60) = true
   <-> (60 # 100) * col_sum Total data < col_sum Total_Revenue (firstn 5 ma)).
Proof.
  intros Hpos. unfold PDFExporter.concentration, Np.div.
  set (total := col_sum Total data) in *.
  set (top := col_sum Total_Revenue (firstn 5 ma)).
  assert (Hnz : ~ total == 0) by (intros E; rewrite E in Hpos; now apply (Qlt_irrefl 0)).
  destruct (Qeq_bool total 0) eqn:E; [now apply Qeq_bool_iff in E|].
  cbn [Np.mul Np.gt]. rewrite Qlt_bool_true.
  assert (Htop : top == (top / total) * total) by (field; exact Hnz).
  set (x := top / total) in *.
  split; intros H.
  - rewrite Htop. nra.
  - rewrite Htop in H. nra.
Qed.


(** C10. [_generate_business_recommendations] returns at most three
    entries: each of its three rules contributes none or one, and the entries
    are those contributions in the order of the rules. *)
Theorem at_most_three_recommendations (ma : MenuTable) (data : DataFrame) :
  let out := PDFExporter._generate_business_recommendations ma data in
  out = (rule_concentration ma data ++ rule_low_performers ma ++ rule_high_margin ma)%list
  /\ (List.length (rule_concentration ma data) <= 1)%nat
  /\ (List.length (rule_low_performers ma) <= 1)%nat
  /\ (List.length (rule_high_margin ma) <= 1)%nat
  /\ (0 <= List.length out <= 3)%nat.
Proof.
  intros out. subst out. rewrite recommendations_by_rule, !length_app.
  assert (H1 : (List.length (rule_concentration ma data) <= 1)%nat).
  { unfold rule_concentration.
    destruct (Np.gt (PDFExporter.concentration ma data) (Finite 60)); simpl; lia. }
  assert (H2 : (List.length (rule_low_performers ma) <= 1)%nat).
  { unfold rule_low_performers. destruct (PDFExporter.low_performers ma); simpl; lia. }
  assert (H3 : (List.length (rule_high_margin ma) <= 1)%nat).
  { unfold rule_high_margin. destruct (PDFExporter.high_margin_low_volume ma); simpl; lia. }
  repeat split; auto; lia.
Qed.

(* ------------------------------------------------------------------ *)
(** ** The shape of a recommendation *)

Lemma business_recommendations_shape (ma : MenuTable) (data : DataFrame) :
  Forall well_formed_recommendation (PDFExporter._generate_business_recommendations ma data).
Proof.
  rewrite recommendations_by_rule.
  unfold rule_concentration, rule_low_performers, rule_high_margin.
  apply Forall_app; split; [|apply Forall_app; split];
    by_rule_condition; one_record.
Qed.

Lemma cogs_recommendations_shape (c : Analyzer.Config) (data : DataFrame) :
  Forall well_formed_recommendation (Analyzer.get_cogs_optimization_recommendations c data).
Proof.
  unfold Analyzer.get_cogs_optimization_recommendations.
  apply Forall_app; split; [|apply Forall_app; split; [|apply Forall_app; split]].
  - unfold Analyzer.rule_reduce_cogs. cbv zeta. by_rule_condition; one_record.
  - unfold Analyzer.rule_diversify. cbv zeta. by_rule_condition; one_record.
  - unfold Analyzer.rule_underperformers. cbv zeta. by_rule_condition; one_record.
  - unfold Analyzer.rule_promote. cbv zeta. by_rule_condition; one_record.
Qed.

(** C7. The recommendations of the COGS rule engine, those of the report's
    business rules, and the list the report prints (the first followed by the
    second) are lists of dicts with exactly the keys title, description and
    potential_saving, each holding a string. *)
Theorem recommendations_are_records (c : Analyzer.Config) (ma : MenuTable) (data : DataFrame) :
  Forall well_formed_recommendation (Analyzer.get_cogs_optimization_recommendations c data)
  /\ Forall well_formed_recommendation (PDFExporter._generate_business_recommendations ma data)
  /\ Forall well_formed_recommendation (PDFExporter.all_recommendations c data).
Proof.
  split; [|split].
  - apply cogs_recommendations_shape.
  - apply business_recommendations_shape.
  - unfold PDFExporter.all_recommendations. apply Forall_app. split.
    + apply cogs_recommendations_shape.
    + apply business_recommendations_shape.
Qed.

(* ------------------------------------------------------------------ *)
(** ** Ratios on a dataset without revenue *)

(** X13. The "Margin %" card of the Overview always shows a number, never
    NaN nor an infinity, and it shows 0 whenever the total revenue is not
    positive. *)
Lemma display_overview_guard (data : DataFrame) :
  Np.is_finite (App.display_overview_avg_margin_pct data) = true
  /\ (col_sum Total data <= 0 -> App.display_overview_avg_margin_pct data = Finite 0).
Proof.
  unfold App.display_overview_avg_margin_pct. cbv zeta.
  destruct (Np.Qlt_bool 0 (col_sum Total data)) eqn:E.
  - apply Qlt_bool_true in E. split.
    + unfold Np.div.
      destruct (Qeq_bool (col_sum Total data) 0) eqn:E0; [|reflexivity].
      apply Qeq_bool_iff in E0. rewrite E0 in E. now apply Qlt_irrefl in E.
    + intros Hle. exfalso. now apply (Qlt_not_le _ _ E).
  - split; reflexivity.
Qed.

(** C1. On the dataset without rows the report's gross margin percentage and
    average COGS percentage are NaN, printed "nan%" on the title page, and on
    a dataset whose revenue sums to zero the gross margin percentage is an
    infinity: no exception, and not the value 0 that the overview card
    computes on the same datasets. *)
Theorem report_ratios_without_revenue :
  PDFExporter.gross_margin_pct [] = NaN
  /\ PDFExporter.avg_cogs_pct [] = NaN
  /\ PDFExporter._create_title_page_metrics []
     = [("Metric", "Nilai"); ("Total Revenue", "Rp 0"); ("Total Margin", "Rp 0");
        ("Gross Margin %", "nan%"); ("Total Transaksi", "0"); ("Rata-rata COGS %", "nan%")]
  /\ PDFExporter.gross_margin_pct [giveaway] = NegInf
  /\ App.display_profitability_gross_margin [] = NaN
  /\ App.display_overview_avg_margin_pct [] = Finite 0
  /\ App.display_overview_avg_margin_pct [giveaway] = Finite 0.
Proof.
  conjuncts; vm_compute; reflexivity.
Qed.

(* ------------------------------------------------------------------ *)
(** ** The dataset without rows *)






(* ------------------------------------------------------------------ *)
(** ** Sums over groups *)

Lemma sum_map_ext {K : Type} (f g : K -> Q) (keys : list K) :
  (forall k, In k keys -> f k == g k) -> Np.sum (map f keys) == Np.sum (map g keys).
Proof.
  induction keys as [|k ks IH]; intros H; simpl.
  - reflexivity.
  - rewrite (H k (or_introl eq_refl)), IH; [reflexivity|].
    intros k' Hk'. apply H. now right.
Qed.

Lemma sum_map_plus {K : Type} (f g : K -> Q) (keys : list K) :
  Np.sum (map (fun k => f k + g k) keys) == Np.sum (map f keys) + Np.sum (map g keys).
Proof.
  induction keys as [|k ks IH]; simpl.
  - reflexivity.
  - rewrite IH. ring.
Qed.

Lemma sum_map_zero {K : Type} (keys : list K) : Np.sum (map (fun _ => 0) keys) == 0.
Proof.
  induction keys as [|k ks IH]; simpl.
  - reflexivity.
  - rewrite IH. ring.
Qed.

(** *** int64 sums *)

Lemma wrap64_small (z : Z) : (- 2 ^ 63 <= z < 2 ^ 63)%Z -> wrap64 z = z.
Proof.
  intros H. unfold wrap64.
  replace (2 ^ 64)%Z with (2 * 2 ^ 63)%Z by reflexivity.
  set (m := (2 ^ 63)%Z) in *.
  rewrite Z.mod_small; lia.
Qed.

Lemma wrap64_range (z : Z) : (- 2 ^ 63 <= wrap64 z < 2 ^ 63)%Z.
Proof.
  unfold wrap64.
  pose proof (Z.mod_pos_bound (z + 2 ^ 63) (2 ^ 64) eq_refl) as H.
  replace (2 ^ 64)%Z with (2 * 2 ^ 63)%Z in * by reflexivity.
  set (m := (2 ^ 63)%Z) in *. lia.
Qed.

Lemma wrap64_mod (z : Z) : (wrap64 z mod 2 ^ 64 = z mod 2 ^ 64)%Z.
Proof.
  unfold wrap64. rewrite Zminus_mod, Z.mod_mod, <- Zminus_mod by discriminate.
  f_equal. lia.
Qed.

Lemma wrap64_congr (a b : Z) : (a mod 2 ^ 64 = b mod 2 ^ 64)%Z -> wrap64 a = wrap64 b.
Proof.
  intros H. unfold wrap64.
  rewrite (Z.add_mod a), (Z.add_mod b), H by discriminate. reflexivity.
Qed.

Lemma sum_of_wrapped_mod {K : Type} (g : K -> Z) (keys : list K) :
  (fold_right Z.add 0 (map (fun k => wrap64 (g k)) keys) mod 2 ^ 64
   = fold_right Z.add 0 (map g keys) mod 2 ^ 64)%Z.
Proof.
  induction keys as [|k ks IH]; cbn [map fold_right].
  - reflexivity.
  - rewrite Z.add_mod, wrap64_mod, IH, <- Z.add_mod by discriminate. reflexivity.
Qed.

(** Adding int64 sums in int64 gives the int64 sum of everything. *)
Lemma wrap64_sum_of_wrapped {K : Type} (g : K -> Z) (keys : list K) :
  wrap64 (fold_right Z.add 0%Z (map (fun k => wrap64 (g k)) keys))
  = wrap64 (fold_right Z.add 0%Z (map g keys)).
Proof. apply wrap64_congr, sum_of_wrapped_mod. Qed.

Lemma totalZ_abs_bound {A : Type} (f : A -> Z) (l : list A) :
  (Z.abs (totalZ_of f l) <= totalZ_of (fun x => Z.abs (f x)) l)%Z.
Proof.
  unfold totalZ_of. induction l as [|x l IH]; simpl; lia.
Qed.

Lemma totalZ_filter_bound {A : Type} (p : A -> bool) (f : A -> Z) (l : list A) :
  (Z.abs (totalZ_of f (filter p l)) <= totalZ_of (fun x => Z.abs (f x)) l)%Z.
Proof.
  unfold totalZ_of. induction l as [|x l IH]; simpl.
  - lia.
  - destruct (p x); simpl; lia.
Qed.

(** Without an overflow the int64 sum is the sum, also on a part of the rows. *)
Lemma col_sumZ_exact {A : Type} (f : A -> Z) (l : list A) :
  (totalZ_of (fun x => Z.abs (f x)) l < 2 ^ 63)%Z -> col_sumZ f l = totalZ_of f l.
Proof.
  intros H. apply wrap64_small. pose proof (totalZ_abs_bound f l).
  fold (totalZ_of f l). set (m := (2 ^ 63)%Z) in *. lia.
Qed.

Lemma col_sumZ_filter_exact {A : Type} (p : A -> bool) (f : A -> Z) (l : list A) :
  (totalZ_of (fun x => Z.abs (f x)) l < 2 ^ 63)%Z ->
  col_sumZ f (filter p l) = totalZ_of f (filter p l).
Proof.
  intros H. apply wrap64_small. pose proof (totalZ_filter_bound p f l).
  fold (totalZ_of f (filter p l)). set (m := (2 ^ 63)%Z) in *. lia.
Qed.

Section GroupSums.

Variable K : Type.
Variable eqb : K -> K -> bool.
Hypothesis eqb_eq : forall x y, eqb x y = true <-> x = y.

Lemma NoDup_unique (l : list K) : NoDup (unique eqb l).
Proof.
  induction l as [|a l IH]; simpl.
  - constructor.
  - constructor.
    + rewrite filter_In. intros [_ H]. apply negb_true_iff in H.
      assert (E : eqb a a = true) by now apply eqb_eq. congruence.
    + now apply NoDup_filter.
Qed.

Lemma sum_once (k0 : K) (v : Q) (keys : list K) :
  NoDup keys ->
  Np.sum (map (fun k => if eqb k0 k then v else 0) keys)
  == if existsb (eqb k0) keys then v else 0.
Proof.
  induction keys as [|k ks IH]; intros Hnd; simpl.
  - reflexivity.
  - inversion Hnd as [|? ? Hnotin Hnd']; subst.
    rewrite (IH Hnd').
    destruct (eqb k0 k) eqn:E; simpl.
    + apply eqb_eq in E. subst k.
      destruct (existsb (eqb k0) ks) eqn:Ex.
      * exfalso. apply existsb_exists in Ex. destruct Ex as [x [Hx Hx']].
        apply eqb_eq in Hx'. subst x. contradiction.
      * ring.
    + ring.
Qed.

Lemma sumZ_once (k0 : K) (v : Z) (keys : list K) :
  NoDup keys ->
  fold_right Z.add 0%Z (map (fun k => if eqb k0 k then v else 0%Z) keys)
  = if existsb (eqb k0) keys then v else 0%Z.
Proof.
  induction keys as [|k ks IH]; intros Hnd; simpl.
  - reflexivity.
  - inversion Hnd as [|? ? Hnotin Hnd']; subst.
    rewrite (IH Hnd').
    destruct (eqb k0 k) eqn:E; simpl.
    + apply eqb_eq in E. subst k.
      destruct (existsb (eqb k0) ks) eqn:Ex.
      * exfalso. apply existsb_exists in Ex. destruct Ex as [x [Hx Hx']].
        apply eqb_eq in Hx'. subst x. contradiction.
      * lia.
    + reflexivity.
Qed.

Lemma existsb_key (k0 : K) (keys : list K) : In k0 keys -> existsb (eqb k0) keys = true.
Proof.
  intros H. apply existsb_exists. exists k0. split; [exact H | now apply eqb_eq].
Qed.

(** The sums of the groups add up to the sum of the whole. *)
Lemma group_sums_add_up {A : Type} (key : A -> K) (val : A -> Q) (keys : list K) (l : list A) :
  NoDup keys -> (forall x, In x l -> In (key x) keys) ->
  Np.sum (map (fun k => col_sum val (filter (fun x => eqb (key x) k) l)) keys)
  == col_sum val l.
Proof.
  intros Hnd. induction l as [|x l IH]; intros Hin.
  - apply (sum_map_zero keys).
  - rewrite (sum_map_ext _
      (fun k => (if eqb (key x) k then val x else 0)
                + col_sum val (filter (fun y => eqb (key y) k) l))).
    + rewrite sum_map_plus, sum_once, existsb_key, IH; auto.
      * unfold col_sum. simpl. reflexivity.
      * intros y Hy. apply Hin. now right.
      * apply Hin. now left.
    + intros k _. simpl. destruct (eqb (key x) k); unfold col_sum; simpl; ring.
Qed.

Lemma group_sumsZ_add_up {A : Type} (key : A -> K) (val : A -> Z) (keys : list K) (l : list A) :
  NoDup keys -> (forall x, In x l -> In (key x) keys) ->
  fold_right Z.add 0%Z (map (fun k => totalZ_of val (filter (fun x => eqb (key x) k) l)) keys)
  = totalZ_of val l.
Proof.
  intros Hnd. induction l as [|x l IH]; intros Hin.
  - unfold totalZ_of. simpl. induction keys as [|k ks IHk]; simpl.
    + reflexivity.
    + inversion Hnd; subst. now rewrite IHk.
  - assert (Hl : forall y, In y l -> In (key y) keys) by (intros y Hy; apply Hin; now right).
    specialize (IH Hl).
    assert (Hx : In (key x) keys) by (apply Hin; now left).
    pose proof (sumZ_once (key x) (val x) keys Hnd) as Hone.
    rewrite (existsb_key _ _ Hx) in Hone.
    unfold totalZ_of in *. simpl. rewrite <- IH, <- Hone at 1.
    clear IH Hone Hin Hl Hx Hnd.
    induction keys as [|k ks IHk]; simpl.
    + reflexivity.
    + rewrite IHk. destruct (eqb (key x) k); simpl; lia.
Qed.

(** The int64 sums of the groups: added up they agree with the int64 sum of
    the whole modulo 2^64, and exactly when nothing overflows. *)
Lemma group_sums64_add_up {A : Type} (key : A -> K) (val : A -> Z) (keys : list K) (l : list A) :
  NoDup keys -> (forall x, In x l -> In (key x) keys) ->
  let groups := map (fun k => col_sumZ val (filter (fun x => eqb (key x) k) l)) keys in
  wrap64 (fold_right Z.add 0%Z groups) = col_sumZ val l
  /\ ((totalZ_of (fun x => Z.abs (val x)) l < 2 ^ 63)%Z ->
      fold_right Z.add 0%Z groups = col_sumZ val l
      /\ col_sumZ val l = totalZ_of val l).
Proof.
  intros Hnd Hin groups. subst groups. split.
  - unfold col_sumZ at 1.
    rewrite (wrap64_sum_of_wrapped
               (fun k => fold_right Z.add 0%Z (map val (filter (fun x => eqb (key x) k) l)))).
    unfold col_sumZ. f_equal. now apply group_sumsZ_add_up.
  - intros Hfit. split; [|now apply col_sumZ_exact].
    rewrite (col_sumZ_exact val l Hfit), <- (group_sumsZ_add_up key val keys l Hnd Hin).
    f_equal. apply map_ext. intros k. now apply col_sumZ_filter_exact.
Qed.

End GroupSums.

Section SortFacts.

Variable K : Type.
Variable leb : K -> K -> bool.

Lemma insert_key_perm (x : K) (l : list K) : Permutation (insert_key leb x l) (x :: l).
Proof.
  induction l as [|y l IH]; simpl.
  - apply Permutation_refl.
  - destruct (leb x y).
    + apply Permutation_refl.
    + eapply Permutation_trans; [apply perm_skip, IH | apply perm_swap].
Qed.

Lemma sort_keys_perm (l : list K) : Permutation (sort_keys leb l) l.
Proof.
  induction l as [|x l IH]; simpl.
  - apply Permutation_refl.
  - fold (sort_keys leb l).
    eapply Permutation_trans; [apply insert_key_perm | now apply perm_skip].
Qed.

Hypothesis leb_total : forall a b, leb a b = false -> leb b a = true.
Hypothesis leb_trans : forall a b c, leb a b = true -> leb b c = true -> leb a c = true.

Lemma insert_key_sorted (x : K) (l : list K) :
  StronglySorted (fun a b => leb a b = true) l ->
  StronglySorted (fun a b => leb a b = true) (insert_key leb x l).
Proof.
  induction l as [|y l IH]; intros Hs; simpl.
  - repeat constructor.
  - inversion Hs as [|? ? Hs' Hy]; subst.
    destruct (leb x y) eqn:E.
    + constructor; [exact Hs|]. constructor; [exact E|].
      rewrite Forall_forall in *. intros z Hz. eapply leb_trans; [exact E | now apply Hy].
    + constructor; [now apply IH|].
      rewrite Forall_forall in *. intros z Hz.
      apply (Permutation_in _ (insert_key_perm x l)) in Hz.
      destruct Hz as [<- | Hz]; [now apply leb_total | now apply Hy].
Qed.

Lemma sort_keys_sorted (l : list K) :
  StronglySorted (fun a b => leb a b = true) (sort_keys leb l).
Proof.
  induction l as [|x l IH]; simpl.
  - constructor.
  - now apply insert_key_sorted.
Qed.

End SortFacts.

Lemma sorted_head_before_tail {K : Type} (R : K -> K -> Prop) (n : nat) (l : list K) :
  StronglySorted R l ->
  forall a b, In a (firstn n l) -> In b (skipn n l) -> R a b.
Proof.
  revert l. induction n as [|n IH]; intros l Hs a b Ha Hb.
  - destruct Ha.
  - destruct l as [|x l]; [destruct Ha|].
    inversion Hs as [|? ? Hs' Hx]; subst. simpl in Ha, Hb.
    destruct Ha as [<- | Ha].
    + rewrite Forall_forall in Hx. apply Hx. now apply In_skipn_In in Hb.
    + now apply (IH l).
Qed.

Lemma NoDup_group_keys (K : Type) (eqb leb : K -> K -> bool)
    (eqb_eq : forall x y, eqb x y = true <-> x = y) (l : list K) :
  NoDup (group_keys eqb leb l).
Proof.
  unfold group_keys.
  apply (Permutation_NoDup (Permutation_sym (sort_keys_perm _ leb (unique eqb l)))).
  now apply NoDup_unique.
Qed.

(* ------------------------------------------------------------------ *)
(** ** The category table of the report *)

(** X1. In the category table of the financial analysis the category rows
    add up to the TOTAL row: the revenues, margins and costs of the
    categories sum to those of the whole dataset.  The quantities are int64
    sums: the quantities of the categories add up to the TOTAL quantity
    modulo 2^64, and exactly when the quantities of the dataset fit int64
    together, in which case the TOTAL quantity is the true sum. *)
Theorem category_rows_add_up (data : DataFrame) :
  let rows := PDFExporter.category_revenue data in
  total_of PDFExporter.cat_Total rows == col_sum Total data
  /\ total_of PDFExporter.cat_Margin rows == col_sum Margin data
  /\ total_of PDFExporter.cat_COGS_Total rows == col_sum COGS_Total data
  /\ wrap64 (totalZ_of PDFExporter.cat_Qty rows) = col_sumZ Qty data
  /\ (quantities_fit data ->
      totalZ_of PDFExporter.cat_Qty rows = col_sumZ Qty data
      /\ col_sumZ Qty data = totalZ_of Qty data).
Proof.
  intros rows. subst rows.
  unfold PDFExporter.category_revenue, total_of, quantities_fit, totalZ_of.
  rewrite !map_map. cbn [PDFExporter.category_row PDFExporter.cat_Total
    PDFExporter.cat_Margin PDFExporter.cat_COGS_Total PDFExporter.cat_Qty].
  assert (Hnd : NoDup (group_keys String.eqb String.leb (map Menu_Category data)))
    by (apply NoDup_group_keys, String.eqb_eq).
  assert (Hin : forall r, In r data ->
            In (Menu_Category r) (group_keys String.eqb String.leb (map Menu_Category data))).
  { intros r Hr. rewrite (In_group_keys _ String.eqb String.leb String.eqb_eq).
    now apply in_map. }
  conjuncts.
  - apply (group_sums_add_up _ _ String.eqb_eq Menu_Category Total); assumption.
  - apply (group_sums_add_up _ _ String.eqb_eq Menu_Category Margin); assumption.
  - apply (group_sums_add_up _ _ String.eqb_eq Menu_Category COGS_Total); assumption.
  - apply (group_sums64_add_up _ _ String.eqb_eq Menu_Category Qty _ data Hnd Hin).
  - apply (group_sums64_add_up _ _ String.eqb_eq Menu_Category Qty _ data Hnd Hin).
Qed.

Lemma category_rows_add_up_witness :
  quantities_fit ranked_sales
  /\ totalZ_of PDFExporter.cat_Qty (PDFExporter.category_revenue ranked_sales) = 20%Z
  /\ col_sumZ Qty ranked_sales = 20%Z.
Proof.
  assert (Hfit : quantities_fit ranked_sales) by (vm_compute; reflexivity).
  destruct (category_rows_add_up ranked_sales) as [_ [_ [_ [_ H]]]].
  destruct (H Hfit) as [Hrows Htotal].
  split; [exact Hfit|]. split.
  - rewrite Hrows, Htotal. vm_compute. reflexivity.
  - rewrite Htotal. vm_compute. reflexivity.
Defined.

(** X2. The category table has a header, one row of five cells for each
    category that occurs in the dataset, no category twice, and the TOTAL
    row. *)
Theorem category_table_rows (data : DataFrame) :
  let rows := PDFExporter.category_revenue data in
  let table := PDFExporter._create_financial_analysis_table data in
  NoDup (map PDFExporter.Category rows)
  /\ (forall c, In c (map PDFExporter.Category rows)
                <-> exists r, In r data /\ Menu_Category r = c)
  /\ List.length table = S (S (List.length rows))
  /\ Forall (fun cells => List.length cells = 5%nat) table
  /\ map (fun cells => nth 0 cells "") table
     = ("Kategori" :: map PDFExporter.Category rows ++ ["TOTAL"])%list.
Proof.
  intros rows table. subst rows table.
  unfold PDFExporter._create_financial_analysis_table, PDFExporter.category_revenue.
  rewrite !map_map. cbn [PDFExporter.category_row PDFExporter.Category].
  rewrite map_id.
  conjuncts.
  - apply NoDup_group_keys, String.eqb_eq.
  - intros c. rewrite (In_group_keys _ String.eqb String.leb String.eqb_eq), in_map_iff.
    split; intros [r H]; exists r; tauto.
  - cbn [List.length]. rewrite length_app, !length_map. cbn [List.length]. lia.
  - constructor; [reflexivity|]. apply Forall_app. split.
    + apply Forall_forall. intros cells H. apply in_map_iff in H.
      destruct H as [k [<- _]]. reflexivity.
    + constructor; [reflexivity | constructor].
  - cbn [map nth]. f_equal. rewrite map_app, map_map. f_equal.
    apply map_id.
Qed.

(* ------------------------------------------------------------------ *)
(** ** The menu detail of the dashboard *)

Lemma menu_daily_adds_up (menu_data : DataFrame) :
  let points := App.menu_daily menu_data in
  wrap64 (totalZ_of (fun p => fst (snd p)) points) = col_sumZ Qty menu_data
  /\ (quantities_fit menu_data ->
      totalZ_of (fun p => fst (snd p)) points = col_sumZ Qty menu_data
      /\ col_sumZ Qty menu_data = totalZ_of Qty menu_data)
  /\ total_of (fun p => snd (snd p)) points == col_sum Total menu_data.
Proof.
  intros points. subst points.
  unfold App.menu_daily, total_of, quantities_fit, totalZ_of.
  rewrite !map_map. cbn [fst snd].
  set (date := fun r : Row => Pd.dt_date (Sales_Date r)).
  assert (Hnd : NoDup (group_keys Z.eqb Z.leb (map date menu_data)))
    by (apply NoDup_group_keys, Z.eqb_eq).
  assert (Hin : forall r, In r menu_data ->
            In (date r) (group_keys Z.eqb Z.leb (map date menu_data))).
  { intros r Hr. rewrite (In_group_keys _ Z.eqb Z.leb Z.eqb_eq). now apply in_map. }
  conjuncts.
  - apply (group_sums64_add_up _ _ Z.eqb_eq date Qty _ menu_data Hnd Hin).
  - apply (group_sums64_add_up _ _ Z.eqb_eq date Qty _ menu_data Hnd Hin).
  - apply (group_sums_add_up _ _ Z.eqb_eq date Total); assumption.
Qed.

(** X3. For a menu offered by the selector, with a name that is not empty,
    the detail block is shown, it covers at least one sale (so the average
    COGS is a number), and the points of the daily trend add up to the total
    revenue shown above it.  The quantities are int64 sums: the points add up
    to the total quantity modulo 2^64, and exactly when the quantities of the
    menu's sales fit int64 together, in which case the total quantity is the
    true sum. *)
Theorem menu_detail_adds_up (data : DataFrame) (m : string)
    (Hoption : In m (App.menu_options data)) (Hname : m <> "") :
  exists d, App.display_menu_detail data (Some m) = Some d
    /\ App.menu_data data m <> []
    /\ Np.is_finite (App.detail_avg_cogs_pct d) = true
    /\ wrap64 (totalZ_of (fun p => fst (snd p)) (App.detail_daily d)) = App.detail_qty d
    /\ (quantities_fit (App.menu_data data m) ->
        totalZ_of (fun p => fst (snd p)) (App.detail_daily d) = App.detail_qty d
        /\ App.detail_qty d = totalZ_of Qty (App.menu_data data m))
    /\ total_of (fun p => snd (snd p)) (App.detail_daily d) == App.detail_revenue d.
Proof.
  unfold App.display_menu_detail.
  destruct m as [|c m']; [congruence|]. cbn [Pd.truthy].
  eexists. split; [reflexivity|]. cbn [App.detail_avg_cogs_pct App.detail_daily
    App.detail_qty App.detail_revenue].
  assert (Hne : App.menu_data data (String c m') <> []).
  { unfold App.menu_options in Hoption.
    rewrite (In_unique _ _ String.eqb_eq) in Hoption.
    apply in_map_iff in Hoption. destruct Hoption as [r [Hr Hin]].
    intros E. assert (H : In r (App.menu_data data (String c m'))).
    { unfold App.menu_data. apply filter_In. split; [exact Hin|].
      now apply String.eqb_eq. }
    rewrite E in H. exact H. }
  split; [exact Hne|]. split.
  - destruct (App.menu_data data (String c m')); [congruence | reflexivity].
  - apply menu_daily_adds_up.
Qed.

Lemma menu_detail_adds_up_witness :
  exists d, App.display_menu_detail two_branch_sales (Some "Mie Ayam") = Some d
    /\ App.detail_qty d = 9%Z
    /\ totalZ_of (fun p => fst (snd p)) (App.detail_daily d) = 9%Z.
Proof.
  destruct (menu_detail_adds_up two_branch_sales "Mie Ayam")
    as [d [Hd [_ [_ [_ [Hfit _]]]]]].
  - vm_compute. now left.
  - discriminate.
  - exists d. split; [exact Hd|].
    destruct Hfit as [Hpoints Hqty]; [vm_compute; reflexivity|].
    rewrite Hpoints, Hqty. split; vm_compute; reflexivity.
Defined.

(** X4. The metrics of the menus offered by the selector add up to the
    figures of the whole dataset: every sale belongs to exactly one option.
    The quantities are int64 sums: they add up modulo 2^64, and exactly when
    the quantities of the dataset fit int64 together. *)
Theorem menu_metrics_add_up (data : DataFrame) :
  total_of (fun m => col_sum Total (App.menu_data data m)) (App.menu_options data)
    == col_sum Total data
  /\ total_of (fun m => col_sum Margin (App.menu_data data m)) (App.menu_options data)
    == col_sum Margin data
  /\ wrap64 (totalZ_of (fun m => col_sumZ Qty (App.menu_data data m)) (App.menu_options data))
     = col_sumZ Qty data
  /\ (quantities_fit data ->
      totalZ_of (fun m => col_sumZ Qty (App.menu_data data m)) (App.menu_options data)
      = col_sumZ Qty data
      /\ col_sumZ Qty data = totalZ_of Qty data).
Proof.
  unfold total_of, quantities_fit, totalZ_of, App.menu_data, App.menu_options.
  assert (Hnd : NoDup (unique String.eqb (map Menu data)))
    by (apply NoDup_unique, String.eqb_eq).
  assert (Hin : forall r, In r data -> In (Menu r) (unique String.eqb (map Menu data))).
  { intros r Hr. rewrite (In_unique _ _ String.eqb_eq). now apply in_map. }
  conjuncts.
  - apply (group_sums_add_up _ _ String.eqb_eq Menu Total); assumption.
  - apply (group_sums_add_up _ _ String.eqb_eq Menu Margin); assumption.
  - apply (group_sums64_add_up _ _ String.eqb_eq Menu Qty _ data Hnd Hin).
  - apply (group_sums64_add_up _ _ String.eqb_eq Menu Qty _ data Hnd Hin).
Qed.

Lemma menu_metrics_add_up_witness :
  quantities_fit two_branch_sales
  /\ totalZ_of (fun m => col_sumZ Qty (App.menu_data two_branch_sales m))
       (App.menu_options two_branch_sales) = 22%Z.
Proof.
  assert (Hfit : quantities_fit two_branch_sales) by (vm_compute; reflexivity).
  destruct (menu_metrics_add_up two_branch_sales) as [_ [_ [_ H]]].
  destruct (H Hfit) as [Hmenus Htotal].
  split; [exact Hfit|]. rewrite Hmenus, Htotal. vm_compute. reflexivity.
Defined.

(* ------------------------------------------------------------------ *)
(** ** The menu tables of the report *)

Lemma length_append (s t : string) :
  String.length (s ++ t) = (String.length s + String.length t)%nat.
Proof. induction s as [|c s IH]; simpl; [reflexivity | now rewrite IH]. Qed.

Lemma length_substring_0 (n : nat) (s : string) :
  String.length (substring 0 n s) = Nat.min n (String.length s).
Proof.
  revert s. induction n as [|n IH]; intros s.
  - destruct s; reflexivity.
  - destruct s as [|c s]; simpl; [reflexivity | now rewrite IH].
Qed.

Lemma substring_0_append (n : nat) (s t : string) :
  (n <= String.length s)%nat -> substring 0 n (s ++ t) = substring 0 n s.
Proof.
  revert s. induction n as [|n IH]; intros s Hn.
  - destruct s; destruct t; reflexivity.
  - destruct s as [|c s]; simpl in *; [lia|]. f_equal. apply IH. lia.
Qed.

Lemma substring_0_twice (n : nat) (s : string) :
  substring 0 n (substring 0 n s) = substring 0 n s.
Proof.
  revert s. induction n as [|n IH]; intros s.
  - destruct s; reflexivity.
  - destruct s as [|c s]; simpl; [reflexivity | now rewrite IH].
Qed.

Lemma menu_cell_bounds_aux (limit : nat) (name : string) :
  (String.length (PDFExporter.menu_cell limit name) <= limit + 3)%nat.
Proof.
  unfold PDFExporter.menu_cell.
  destruct (limit <? String.length name)%nat eqn:E.
  - rewrite length_append, length_substring_0. simpl. lia.
  - apply Nat.ltb_ge in E. lia.
Qed.

(** X5. A Menu cell of the report's tables is the name itself when the name
    has at most [limit] characters; otherwise it is its first [limit]
    characters and three dots.  It never has more than [limit + 3]
    characters, it always starts like the name, and it can be up to two
    characters longer than the name it shortens. *)
Theorem menu_cell_bounds (limit : nat) (name : string) :
  (String.length (PDFExporter.menu_cell limit name) <= limit + 3)%nat
  /\ (String.length (PDFExporter.menu_cell limit name) <= String.length name + 2)%nat
  /\ ((String.length name <= limit)%nat -> PDFExporter.menu_cell limit name = name)
  /\ ((limit < String.length name)%nat ->
      String.length (PDFExporter.menu_cell limit name) = (limit + 3)%nat)
  /\ substring 0 limit (PDFExporter.menu_cell limit name) = substring 0 limit name.
Proof.
  unfold PDFExporter.menu_cell.
  destruct (limit <? String.length name)%nat eqn:E.
  - apply Nat.ltb_lt in E.
    assert (Hlen : String.length (substring 0 limit name ++ "...") = (limit + 3)%nat).
    { rewrite length_append, length_substring_0. simpl. lia. }
    conjuncts; try lia.
    rewrite substring_0_append.
    + apply substring_0_twice.
    + rewrite length_substring_0. lia.
  - apply Nat.ltb_ge in E. conjuncts; try lia; auto.
Qed.

Lemma enumerate_fst {A : Type} (start : nat) (l : list A) :
  map fst (Pd.enumerate start l) = seq start (List.length l).
Proof.
  unfold Pd.enumerate. revert start. induction l as [|a l IH]; intros start; simpl.
  - reflexivity.
  - now rewrite IH.
Qed.

Lemma enumerate_snd {A : Type} (start : nat) (l : list A) :
  map snd (Pd.enumerate start l) = l.
Proof.
  unfold Pd.enumerate. revert start. induction l as [|a l IH]; intros start; simpl.
  - reflexivity.
  - now rewrite IH.
Qed.

(** X6. The two menu tables of the report have a header and one row of five
    cells per menu received; the Rank cells count 1, 2, 3, ... down the
    table, and the Menu cells are the names of the menus in the order
    received, each shortened to 30 characters and three dots at most. *)
Theorem menu_tables_shape (top_menus profitable_menus : MenuTable) :
  let top := PDFExporter._create_menu_analysis_top_table top_menus in
  let profit := PDFExporter._create_menu_analysis_profit_table profitable_menus in
  Forall (fun cells => List.length cells = 5%nat) top
  /\ Forall (fun cells => List.length cells = 5%nat) profit
  /\ map (fun cells => nth 0 cells "") (tl top)
     = map Fmt.str_nat (seq 1 (List.length top_menus))
  /\ map (fun cells => nth 0 cells "") (tl profit)
     = map Fmt.str_nat (seq 1 (List.length profitable_menus))
  /\ map (fun cells => nth 1 cells "") (tl top)
     = map (fun r => PDFExporter.menu_cell 30 (menu r)) top_menus
  /\ map (fun cells => nth 1 cells "") (tl profit)
     = map (fun r => PDFExporter.menu_cell 30 (menu r)) profitable_menus
  /\ Forall (fun cells => (String.length (nth 1 cells "") <= 33)%nat) (tl top)
  /\ Forall (fun cells => (String.length (nth 1 cells "") <= 33)%nat) (tl profit).
Proof.
  intros top profit. subst top profit.
  unfold PDFExporter._create_menu_analysis_top_table,
    PDFExporter._create_menu_analysis_profit_table.
  cbn [tl]. rewrite !map_map. cbn [nth].
  conjuncts.
  - constructor; [reflexivity|]. apply Forall_forall. intros cells H.
    apply in_map_iff in H. destruct H as [ir [<- _]]. reflexivity.
  - constructor; [reflexivity|]. apply Forall_forall. intros cells H.
    apply in_map_iff in H. destruct H as [ir [<- _]]. reflexivity.
  - rewrite <- enumerate_fst with (start := 1%nat), map_map. reflexivity.
  - rewrite <- enumerate_fst with (start := 1%nat), map_map. reflexivity.
  - rewrite <- (enumerate_snd 1 top_menus) at 2. rewrite map_map. reflexivity.
  - rewrite <- (enumerate_snd 1 profitable_menus) at 2. rewrite map_map. reflexivity.
  - apply Forall_forall. intros cells H. apply in_map_iff in H.
    destruct H as [ir [<- _]]. cbn [nth]. apply (menu_cell_bounds_aux 30).
  - apply Forall_forall. intros cells H. apply in_map_iff in H.
    destruct H as [ir [<- _]]. cbn [nth]. apply (menu_cell_bounds_aux 30).
Qed.

(* ------------------------------------------------------------------ *)
(** ** The judgement of the average COGS *)

Lemma Qle_bool_false (a b : Q) : Qle_bool a b = false <-> b < a.
Proof.
  split.
  - intros H. apply Qnot_le_lt. intros Hle. apply Qle_bool_iff in Hle. congruence.
  - intros H. destruct (Qle_bool a b) eqn:E; [|reflexivity].
    apply Qle_bool_iff in E. exfalso. now apply (Qlt_not_le _ _ H).
Qed.

Lemma summary_good_iff (q : Q) :
  PDFExporter.summary_efficiency (Finite q) = "efisiensi yang baik" <-> q < 30.
Proof.
  unfold PDFExporter.summary_efficiency. cbn [Np.lt Np.gt]. unfold Np.Qlt_bool.
  destruct (Qle_bool 30 q) eqn:E; cbn [negb]; by_order;
    split; intros H; try discriminate; try reflexivity; try assumption.
  exfalso. lra.
Qed.

Lemma summary_bad_iff (q : Q) :
  PDFExporter.summary_efficiency (Finite q) = "area yang perlu optimasi" <-> 30 <= q.
Proof.
  unfold PDFExporter.summary_efficiency. cbn [Np.lt Np.gt]. unfold Np.Qlt_bool.
  destruct (Qle_bool 30 q) eqn:E; cbn [negb]; by_order;
    split; intros H; try discriminate; try reflexivity; try assumption.
  exfalso. lra.
Qed.

Lemma interpretation_perlu_iff (q : Q) :
  PDFExporter.cogs_interpretation (Finite q) = "perlu optimasi" <-> 30 < q.
Proof.
  unfold PDFExporter.cogs_interpretation. cbn [Np.gt Pd.le]. unfold Np.Qlt_bool.
  destruct (Qle_bool 20 q) eqn:E2, (Qle_bool q 30) eqn:E3; cbn [negb andb]; by_order;
    split; intros H; try discriminate; try reflexivity; try assumption; exfalso; lra.
Qed.

Lemma focus_lines_together (x : np_float) :
  PDFExporter.summary_focus x = "Optimasi COGS untuk meningkatkan margin"
  <-> PDFExporter.cogs_focus x = "Fokus pada optimasi supplier dan porsi".
Proof.
  unfold PDFExporter.summary_focus, PDFExporter.cogs_focus.
  destruct (Np.gt x (Finite 25)); split; intros H; try discriminate; reflexivity.
Qed.

Lemma judgements_of_a_value (x : np_float) :
  (PDFExporter.summary_efficiency x = "efisiensi yang baik" ->
   PDFExporter.cogs_interpretation x <> "perlu optimasi")
  /\ ((PDFExporter.summary_efficiency x = "area yang perlu optimasi"
       /\ PDFExporter.cogs_interpretation x <> "perlu optimasi")
      <-> (x = NaN \/ exists q, x = Finite q /\ q == 30))
  /\ (PDFExporter.summary_focus x = "Optimasi COGS untuk meningkatkan margin"
      <-> PDFExporter.cogs_focus x = "Fokus pada optimasi supplier dan porsi").
Proof.
  split; [|split; [|apply focus_lines_together]].
  - destruct x as [q| | |];
      try (vm_compute; intros H; first [discriminate H | intros H'; discriminate H']).
    rewrite summary_good_iff, interpretation_perlu_iff. intros H1 H2. lra.
  - destruct x as [q| | |].
    + rewrite summary_bad_iff, interpretation_perlu_iff. split.
      * intros [H1 H2]. right. exists q. split; [reflexivity|].
        apply Qle_antisym; [|exact H1]. apply Qnot_lt_le. exact H2.
      * intros [H | [q' [[= <-] Hq]]]; [discriminate|]. split; lra.
    + split; [intros [_ H]; now contradiction H | intros [H | [q [H _]]]; discriminate].
    + split; [intros [H _]; discriminate | intros [H | [q [H _]]]; discriminate].
    + split; [intros _; now left | intros _; split; [reflexivity | discriminate]].
Qed.

(** X7. The executive summary and the COGS section of the report judge the
    same average COGS percentage.  When the summary calls it good, the
    section never says "perlu optimasi".  The summary says "area yang perlu
    optimasi" while the section does not exactly when the dataset has no row
    (the average is NaN) or the average is 30.  The two focus lines always
    go together. *)
Theorem cogs_judgements (data : DataFrame) :
  let x := PDFExporter.avg_cogs_pct data in
  (PDFExporter.summary_efficiency x = "efisiensi yang baik" ->
   PDFExporter.cogs_interpretation x <> "perlu optimasi")
  /\ ((PDFExporter.summary_efficiency x = "area yang perlu optimasi"
       /\ PDFExporter.cogs_interpretation x <> "perlu optimasi")
      <-> (data = [] \/ exists q, x = Finite q /\ q == 30))
  /\ (PDFExporter.summary_focus x = "Optimasi COGS untuk meningkatkan margin"
      <-> PDFExporter.cogs_focus x = "Fokus pada optimasi supplier dan porsi").
Proof.
  intros x. destruct (judgements_of_a_value x) as [H1 [H2 H3]].
  split; [exact H1 | split; [|exact H3]].
  rewrite H2. subst x. unfold PDFExporter.avg_cogs_pct, Np.mean.
  destruct data as [|r data]; simpl.
  - split; intros _; now left.
  - split; (intros [H | H]; [discriminate | now right]).
Qed.

(* ------------------------------------------------------------------ *)
(** ** The daily performance of the report *)

Lemma fold_qmax_spec (xs : list Q) (x : Q) :
  In (fold_left Pd.qmax xs x) (x :: xs)
  /\ forall y, In y (x :: xs) -> y <= fold_left Pd.qmax xs x.
Proof.
  revert x. induction xs as [|z xs IH]; intros x; cbn [fold_left].
  - split; [now left|]. intros y [<- | []]. apply Qle_refl.
  - destruct (IH (Pd.qmax x z)) as [Hin Hmax]. unfold Pd.qmax in *.
    destruct (Qle_bool x z) eqn:E; by_order.
    + split; [now right|]. intros y [<- | Hy]; [|now apply Hmax].
      eapply Qle_trans; [exact E|]. apply Hmax. now left.
    + split.
      * destruct Hin as [Hin | Hin]; [now left | right; now right].
      * intros y [<- | [<- | Hy]].
        -- apply Hmax. now left.
        -- eapply Qle_trans; [apply Qlt_le_weak; eassumption|]. apply Hmax. now left.
        -- apply Hmax. now right.
Qed.

Lemma fold_qmin_spec (xs : list Q) (x : Q) :
  In (fold_left Pd.qmin xs x) (x :: xs)
  /\ forall y, In y (x :: xs) -> fold_left Pd.qmin xs x <= y.
Proof.
  revert x. induction xs as [|z xs IH]; intros x; cbn [fold_left].
  - split; [now left|]. intros y [<- | []]. apply Qle_refl.
  - destruct (IH (Pd.qmin x z)) as [Hin Hmin]. unfold Pd.qmin in *.
    destruct (Qle_bool z x) eqn:E; by_order.
    + split; [now right|]. intros y [<- | Hy]; [|now apply Hmin].
      eapply Qle_trans; [|exact E]. apply Hmin. now left.
    + split.
      * destruct Hin as [Hin | Hin]; [now left | right; now right].
      * intros y [<- | [<- | Hy]].
        -- apply Hmin. now left.
        -- eapply Qle_trans; [|apply Qlt_le_weak; eassumption]. apply Hmin. now left.
        -- apply Hmin. now right.
Qed.

Lemma count_as_Q (n : nat) :
  inject_Z (Z.of_nat (S n)) == inject_Z (Z.of_nat n) + 1.
Proof. rewrite Nat2Z.inj_succ. unfold Z.succ. now rewrite inject_Z_plus. Qed.

Lemma sum_at_most (xs : list Q) (m : Q) :
  (forall y, In y xs -> y <= m) -> Np.sum xs <= inject_Z (Z.of_nat (List.length xs)) * m.
Proof.
  induction xs as [|x xs IH]; intros H.
  - cbn. rewrite Qmult_0_l. apply Qle_refl.
  - cbn [Np.sum fold_right List.length]. fold (Np.sum xs). rewrite count_as_Q.
    assert (Hx : x <= m) by (apply H; now left).
    assert (Hxs : Np.sum xs <= inject_Z (Z.of_nat (List.length xs)) * m)
      by (apply IH; intros y Hy; apply H; now right).
    lra.
Qed.

Lemma sum_at_least (xs : list Q) (m : Q) :
  (forall y, In y xs -> m <= y) -> inject_Z (Z.of_nat (List.length xs)) * m <= Np.sum xs.
Proof.
  induction xs as [|x xs IH]; intros H.
  - cbn. rewrite Qmult_0_l. apply Qle_refl.
  - cbn [Np.sum fold_right List.length]. fold (Np.sum xs). rewrite count_as_Q.
    assert (Hx : m <= x) by (apply H; now left).
    assert (Hxs : inject_Z (Z.of_nat (List.length xs)) * m <= Np.sum xs)
      by (apply IH; intros y Hy; apply H; now right).
    lra.
Qed.

Lemma count_positive {A : Type} (x : A) (xs : list A) :
  0 < inject_Z (Z.of_nat (List.length (x :: xs))).
Proof.
  change 0 with (inject_Z 0). rewrite <- Zlt_Qlt. cbn [List.length]. lia.
Qed.

(** X8. On a daily trend without points the mean, the best day, the worst
    day and the volatility are all NaN.  Otherwise the best and the worst
    day are revenues of the trend with worst <= mean <= best; with a positive
    mean the volatility is a number that is not negative, and with a mean of
    zero it is not a number (NaN or an infinity). *)
Theorem daily_performance_bounds (daily_revenue : list Q) :
  match daily_revenue with
  | [] =>
      PDFExporter.avg_daily_revenue daily_revenue = NaN
      /\ PDFExporter.best_day_revenue daily_revenue = NaN
      /\ PDFExporter.worst_day_revenue daily_revenue = NaN
      /\ PDFExporter.volatility daily_revenue = NaN
  | _ :: _ =>
      exists a b w,
        PDFExporter.avg_daily_revenue daily_revenue = Finite a
        /\ PDFExporter.best_day_revenue daily_revenue = Finite b
        /\ PDFExporter.worst_day_revenue daily_revenue = Finite w
        /\ In b daily_revenue /\ In w daily_revenue
        /\ w <= a /\ a <= b
        /\ (0 < a -> exists v, PDFExporter.volatility daily_revenue = Finite v /\ 0 <= v)
        /\ (a == 0 -> Np.is_finite (PDFExporter.volatility daily_revenue) = false)
  end.
Proof.
  destruct daily_revenue as [|x xs].
  - conjuncts; reflexivity.
  - unfold PDFExporter.volatility, PDFExporter.avg_daily_revenue,
      PDFExporter.best_day_revenue, PDFExporter.worst_day_revenue.
    cbn [Np.mean Pd.max Pd.min Pd.sub Pd.divf].
    destruct (fold_qmax_spec xs x) as [Hbin Hb].
    destruct (fold_qmin_spec xs x) as [Hwin Hw].
    set (b := fold_left Pd.qmax xs x) in *.
    set (w := fold_left Pd.qmin xs x) in *.
    set (n := inject_Z (Z.of_nat (List.length (x :: xs)))).
    set (a := Np.sum (x :: xs) / n).
    assert (Hn : 0 < n) by apply count_positive.
    assert (Hwa : w <= a).
    { unfold a. apply Qle_shift_div_l; [exact Hn|].
      rewrite Qmult_comm. now apply sum_at_least. }
    assert (Hab : a <= b).
    { unfold a. apply Qle_shift_div_r; [exact Hn|].
      rewrite Qmult_comm. now apply sum_at_most. }
    exists a, b, w. conjuncts; try reflexivity; try assumption.
    + intros Ha. unfold Np.div.
      destruct (Qeq_bool a 0) eqn:E.
      * apply Qeq_bool_iff in E. rewrite E in Ha. now apply Qlt_irrefl in Ha.
      * eexists. split; [reflexivity|].
        assert (H0 : 0 <= (b - w) / a) by (apply Qle_shift_div_l; [exact Ha | lra]).
        lra.
    + intros Ha. unfold Np.div.
      assert (E : Qeq_bool a 0 = true) by now apply Qeq_bool_iff.
      rewrite E.
      destruct (Qeq_bool (b - w) 0); [reflexivity|].
      destruct (Qle_bool 0 (b - w)); reflexivity.
Qed.

(* ------------------------------------------------------------------ *)
(** ** The best menus of the dashboard *)

Lemma sorted_weaken {A : Type} (R R' : A -> A -> Prop) (l : list A) :
  (forall a b, R a b -> R' a b) -> StronglySorted R l -> StronglySorted R' l.
Proof.
  intros HR. induction l as [|x l IH]; intros Hs.
  - constructor.
  - inversion Hs as [|? ? Hs' Hx]; subst. constructor; [now apply IH|].
    rewrite Forall_forall in *. intros b Hb. apply HR. now apply Hx.
Qed.

Lemma sorted_firstn {A : Type} (R : A -> A -> Prop) (n : nat) (l : list A) :
  StronglySorted R l -> StronglySorted R (firstn n l).
Proof.
  revert n. induction l as [|x l IH]; intros n Hs.
  - rewrite firstn_nil. constructor.
  - inversion Hs as [|? ? Hs' Hx]; subst.
    destruct n as [|n]; cbn [firstn]; constructor; [now apply IH|].
    rewrite Forall_forall in *. intros b Hb. apply Hx.
    rewrite <- (firstn_skipn n l). apply in_or_app. now left.
Qed.

Lemma nlargest_spec {A : Type} (n : nat) (col : A -> Q) (df : list A) :
  let top := Pd.nlargest n col df in
  List.length top = Nat.min n (List.length df)
  /\ StronglySorted (fun a b => col b <= col a) top
  /\ exists rest, Permutation df (top ++ rest)
                  /\ forall a b, In a top -> In b rest -> col b <= col a.
Proof.
  intros top. subst top. unfold Pd.nlargest.
  set (leb := fun a b : A => Qle_bool (col b) (col a)).
  assert (Hsorted : StronglySorted (fun a b => leb a b = true) (sort_keys leb df)).
  { apply sort_keys_sorted; unfold leb.
    - intros a b H. by_order. apply Qle_bool_iff. now apply Qlt_le_weak.
    - intros a b c H1 H2. by_order. apply Qle_bool_iff. eapply Qle_trans; eassumption. }
  assert (Hperm := sort_keys_perm _ leb df).
  conjuncts.
  - rewrite length_firstn. now rewrite (Permutation_length Hperm).
  - apply sorted_firstn.
    apply (sorted_weaken (fun a b => leb a b = true)); [|exact Hsorted].
    intros a b H. now apply Qle_bool_iff.
  - exists (skipn n (sort_keys leb df)). split.
    + rewrite firstn_skipn. now apply Permutation_sym.
    + intros a b Ha Hb. apply Qle_bool_iff.
      exact (sorted_head_before_tail _ n _ Hsorted a b Ha Hb).
Qed.

(** X9. Each of the two tables of the best menus of the dashboard holds ten
    rows, or all of them when there are fewer; its rows are in descending
    order of the column, and no menu left out of a table has a larger value
    than a menu in it: the table and the rest make up the table received. *)
Theorem best_menus_tables (menu_performance : MenuTable) :
  let by_volume := App.display_menu_analysis_top_volume menu_performance in
  let by_revenue := App.display_menu_analysis_top_revenue menu_performance in
  List.length by_volume = Nat.min 10 (List.length menu_performance)
  /\ List.length by_revenue = Nat.min 10 (List.length menu_performance)
  /\ StronglySorted (fun a b => (Total_Qty b <= Total_Qty a)%Z) by_volume
  /\ StronglySorted (fun a b => Total_Revenue b <= Total_Revenue a) by_revenue
  /\ (exists rest, Permutation menu_performance (by_volume ++ rest)
        /\ forall a b, In a by_volume -> In b rest -> (Total_Qty b <= Total_Qty a)%Z)
  /\ (exists rest, Permutation menu_performance (by_revenue ++ rest)
        /\ forall a b, In a by_revenue -> In b rest -> Total_Revenue b <= Total_Revenue a).
Proof.
  intros by_volume by_revenue. subst by_volume by_revenue.
  unfold App.display_menu_analysis_top_volume, App.display_menu_analysis_top_revenue.
  destruct (nlargest_spec 10 (fun r => inject_Z (Total_Qty r)) menu_performance)
    as [Hl1 [Hs1 [rest1 [Hp1 Hd1]]]].
  destruct (nlargest_spec 10 Total_Revenue menu_performance)
    as [Hl2 [Hs2 [rest2 [Hp2 Hd2]]]].
  cbv zeta in *. conjuncts; try assumption.
  - apply (sorted_weaken (fun a b => inject_Z (Total_Qty b) <= inject_Z (Total_Qty a)));
      [|exact Hs1].
    intros a b H. rewrite Zle_Qle. exact H.
  - exists rest1. split; [exact Hp1|]. intros a b Ha Hb. rewrite Zle_Qle. now apply Hd1.
  - exists rest2. split; assumption.
Qed.

(* ------------------------------------------------------------------ *)
(** ** The chat history *)

Lemma conversation_app (b : bool) (h l : list pydict) :
  conversation b h -> conversation (ends_with_question b h) l -> conversation b (h ++ l).
Proof.
  revert b. induction h as [|m h IH]; intros b Hh Hl.
  - exact Hl.
  - cbn [app conversation ends_with_question] in *.
    destruct Hh as [[q [-> [Hq Hh]]] | [a [-> [Hb Hh]]]].
    + left. exists q. split; [reflexivity | split; [exact Hq|]]. now apply IH.
    + right. exists a. split; [reflexivity | split; [exact Hb|]]. now apply IH.
Qed.

Lemma ends_with_question_app (b : bool) (h : list pydict) (m : pydict) :
  ends_with_question b (h ++ [m]) = is_question m.
Proof.
  revert b. induction h as [|x h IH]; intros b; [reflexivity | apply IH].
Qed.

Lemma truthy_not_empty (s : string) : Pd.truthy s = true -> s <> "".
Proof. destruct s; [discriminate | discriminate]. Qed.

Lemma suggested_not_empty (i : nat) (q : string) :
  nth_error App.suggested_questions i = Some q -> q <> "".
Proof.
  intros H. apply nth_error_In in H. unfold App.suggested_questions in H.
  simpl in H. repeat (destruct H as [<- | H]; [discriminate|]). destruct H.
Qed.

Lemma ask_keeps_conversation (h : list pydict) (q : string) (reply : py string) :
  q <> "" -> conversation false h -> conversation false (App.ask h q reply).
Proof.
  intros Hq Hh. unfold App.ask.
  assert (Hu : conversation false (h ++ [App.user_message q])).
  { apply conversation_app; [exact Hh|]. left. exists q. now repeat split. }
  destruct reply as [a | e]; [|exact Hu].
  apply conversation_app; [exact Hu|].
  rewrite ends_with_question_app. right. exists a. now repeat split.
Qed.

Lemma display_chatbot_keeps_conversation (h : list pydict) (ev : App.chat_event) :
  conversation false h -> conversation false (App.display_chatbot h ev).
Proof.
  intros Hh. destruct ev as [q reply | i reply |]; cbn [App.display_chatbot].
  - destruct (Pd.truthy q) eqn:E; [|exact Hh].
    apply ask_keeps_conversation; [now apply truthy_not_empty | exact Hh].
  - destruct (nth_error App.suggested_questions i) as [q|] eqn:E; [|exact Hh].
    apply ask_keeps_conversation; [now apply (suggested_not_empty i) | exact Hh].
  - exact I.
Qed.

Lemma session_keeps_conversation (evs : list App.chat_event) (h : list pydict) :
  conversation false h -> conversation false (fold_left App.display_chatbot evs h).
Proof.
  revert h. induction evs as [|ev evs IH]; intros h Hh; [exact Hh|].
  apply IH. now apply display_chatbot_keeps_conversation.
Qed.

Lemma conversation_members (b : bool) (h : list pydict) (m : pydict) :
  conversation b h -> In m h ->
  (exists q, m = App.user_message q /\ q <> "") \/ (exists a, m = App.assistant_message a).
Proof.
  revert b. induction h as [|x h IH]; intros b Hh Hm; [destruct Hm|].
  destruct Hh as [[q [-> [Hq Hh]]] | [a [-> [Hb Hh]]]]; destruct Hm as [<- | Hm]; eauto.
Qed.

Lemma answer_follows_question (b : bool) (h1 h2 : list pydict) (a : string) :
  conversation b (h1 ++ App.assistant_message a :: h2) ->
  (h1 = [] /\ b = true) \/ exists h0 q, h1 = (h0 ++ [App.user_message q])%list.
Proof.
  revert b. induction h1 as [|m h1 IH]; intros b H.
  - destruct H as [[q [E _]] | [a' [_ [Hb _]]]]; [discriminate | now left].
  - right. cbn [app conversation] in H.
    destruct H as [[q [-> [_ H]]] | [a' [-> [_ H]]]];
      destruct (IH _ H) as [[-> E] | [h0 [q' ->]]]; try discriminate.
    + exists [], q. reflexivity.
    + exists (App.user_message q :: h0), q'. reflexivity.
    + exists (App.assistant_message a' :: h0), q'. reflexivity.
Qed.

(** X10. Whatever the sequence of questions typed, suggested questions
    pressed, failed or answered requests and clearings, the chat history only
    holds questions with a text that is not empty and answers, and every
    answer comes directly after a question: the history never starts with an
    answer and never holds two answers in a row. *)
Theorem chat_history_invariant (evs : list App.chat_event) :
  let h := App.chat_session evs in
  (forall m, In m h ->
     (exists q, m = App.user_message q /\ q <> "") \/ (exists a, m = App.assistant_message a))
  /\ (forall h1 a h2, h = (h1 ++ App.assistant_message a :: h2)%list ->
        exists h0 q, h1 = (h0 ++ [App.user_message q])%list).
Proof.
  intros h.
  assert (Hc : conversation false h) by (apply session_keeps_conversation; exact I).
  split.
  - intros m. now apply (conversation_members false).
  - intros h1 a h2 E. rewrite E in Hc.
    destruct (answer_follows_question _ _ _ _ Hc) as [[_ Hb] | H]; [discriminate | exact H].
Qed.

Lemma display_chatbot_appends (h : list pydict) (ev : App.chat_event) :
  ev <> App.ClearHistory ->
  exists added, App.display_chatbot h ev = (h ++ added)%list /\ (List.length added <= 2)%nat.
Proof.
  intros Hev. destruct ev as [q reply | i reply |]; cbn [App.display_chatbot].
  - destruct (Pd.truthy q).
    + unfold App.ask. destruct reply as [a | e].
      * exists [App.user_message q; App.assistant_message a].
        rewrite <- app_assoc. split; [reflexivity | simpl; lia].
      * exists [App.user_message q]. split; [reflexivity | simpl; lia].
    + exists []. rewrite app_nil_r. split; [reflexivity | simpl; lia].
  - destruct (nth_error App.suggested_questions i) as [q|].
    + unfold App.ask. destruct reply as [a | e].
      * exists [App.user_message q; App.assistant_message a].
        rewrite <- app_assoc. split; [reflexivity | simpl; lia].
      * exists [App.user_message q]. split; [reflexivity | simpl; lia].
    + exists []. rewrite app_nil_r. split; [reflexivity | simpl; lia].
  - congruence.
Qed.

Lemma session_appends (evs : list App.chat_event) (h : list pydict) :
  never_cleared evs ->
  exists added, fold_left App.display_chatbot evs h = (h ++ added)%list
                /\ (List.length added <= 2 * List.length evs)%nat.
Proof.
  revert h. induction evs as [|ev evs IH]; intros h Hk.
  - exists []. rewrite app_nil_r. split; [reflexivity | simpl; lia].
  - cbn [fold_left].
    destruct (display_chatbot_appends h ev) as [a1 [E1 L1]]; [apply Hk; now left|].
    destruct (IH (App.display_chatbot h ev)) as [a2 [E2 L2]].
    { intros e He. apply Hk. now right. }
    exists (a1 ++ a2)%list. rewrite E2, E1, <- app_assoc. split; [reflexivity|].
    rewrite length_app. cbn [List.length]. lia.
Qed.

(** X11. Unless the history is cleared, a chat session only adds to it:
    after further events, none of them a clearing, the earlier history is
    still there, unchanged, at the start of the new one, followed by at most
    two messages per event. *)
Theorem chat_history_grows (evs1 evs2 : list App.chat_event)
    (Hkeep : never_cleared evs2) :
  exists added,
    App.chat_session (evs1 ++ evs2) = (App.chat_session evs1 ++ added)%list
    /\ (List.length added <= 2 * List.length evs2)%nat.
Proof.
  unfold App.chat_session. rewrite fold_left_app. now apply session_appends.
Qed.

Lemma chat_history_grows_witness :
  exists added,
    App.chat_session ([App.Send "Halo" (Ok "Hai")]
                      ++ [App.Suggested 6 (Raise ValueError); App.Send "" (Ok "?")])
    = (App.chat_session [App.Send "Halo" (Ok "Hai")] ++ added)%list
    /\ (List.length added <= 4)%nat.
Proof.
  apply (chat_history_grows [App.Send "Halo" (Ok "Hai")]
           [App.Suggested 6 (Raise ValueError); App.Send "" (Ok "?")]).
  intros ev H. simpl in H. destruct H as [<- | [<- | []]]; discriminate.
Defined.

(* ------------------------------------------------------------------ *)
(** ** One margin, three views *)

Lemma margin_is_revenue_less_cost (data : DataFrame) :
  margin_identity data ->
  col_sum Margin data == col_sum Total data - col_sum COGS_Total data.
Proof.
  unfold margin_identity, col_sum. induction data as [|r data IH]; intros H.
  - simpl. ring.
  - cbn [map Np.sum fold_right].
    fold (Np.sum (map Margin data)) (Np.sum (map Total data)) (Np.sum (map COGS_Total data)).
    rewrite (H r (or_introl eq_refl)), IH; [ring|].
    intros r' Hr'. apply H. now right.
Qed.

(** X12. On a dataset whose rows satisfy margin = revenue - cost and whose
    total revenue is positive, the margin percentage of the Overview card,
    the gross margin of the Profitability tab and the gross margin of the
    report are the same number, and together with the COGS percentage of the
    report it makes 100. *)
Theorem margin_views_agree (data : DataFrame)
    (Hmargin : margin_identity data) (Hrevenue : 0 < col_sum Total data) :
  exists m c,
    PDFExporter.gross_margin_pct data = Finite m
    /\ App.display_overview_avg_margin_pct data = Finite m
    /\ np_eq (App.display_profitability_gross_margin data) (Finite m)
    /\ PDFExporter.cogs_percentage data = Finite c
    /\ m + c == 100.
Proof.
  pose proof (margin_is_revenue_less_cost data Hmargin) as HM.
  unfold PDFExporter.gross_margin_pct, App.display_overview_avg_margin_pct,
    App.display_profitability_gross_margin, PDFExporter.cogs_percentage, Np.div.
  cbv zeta.
  set (T := col_sum Total data) in *.
  set (C := col_sum COGS_Total data) in *.
  set (M := col_sum Margin data) in *.
  assert (Hnz : ~ T == 0) by (intros E; rewrite E in Hrevenue; now apply (Qlt_irrefl 0)).
  assert (E0 : Qeq_bool T 0 = false).
  { destruct (Qeq_bool T 0) eqn:E; [|reflexivity]. now apply Qeq_bool_iff in E. }
  assert (E1 : Np.Qlt_bool 0 T = true) by now apply Qlt_bool_true.
  rewrite E0, E1. cbn [Np.mul].
  exists (M / T * 100), (C / T * 100). conjuncts; try reflexivity.
  - cbn [np_eq]. rewrite HM. reflexivity.
  - rewrite HM. field. exact Hnz.
Qed.

Lemma margin_views_agree_witness :
  exists m c,
    PDFExporter.gross_margin_pct ranked_sales = Finite m
    /\ PDFExporter.cogs_percentage ranked_sales = Finite c
    /\ m + c == 100.
Proof.
  destruct (margin_views_agree ranked_sales) as [m [c [H1 [_ [_ [H2 H3]]]]]].
  - intros r H. simpl in H.
    repeat (destruct H as [<- | H]; [reflexivity|]). destruct H.
  - reflexivity.
  - exists m, c. split; [exact H1 | split; [exact H2 | exact H3]].
Defined.

(* ------------------------------------------------------------------ *)
(** ** The best seller and the two quantity rules *)

Lemma In_np_insert (x y : Q) (l : list Q) :
  In y (Np.insert_sorted x l) <-> y = x \/ In y l.
Proof.
  induction l as [|z l IH]; simpl.
  - intuition.
  - destruct (Qle_bool x z); simpl; rewrite ?IH; intuition.
Qed.

Lemma In_np_sort (y : Q) (l : list Q) : In y (Np.sort l) <-> In y l.
Proof.
  induction l as [|x l IH]; simpl.
  - tauto.
  - fold (Np.sort l). rewrite In_np_insert, IH. intuition.
Qed.

Lemma length_np_insert (x : Q) (l : list Q) :
  List.length (Np.insert_sorted x l) = S (List.length l).
Proof.
  induction l as [|z l IH]; simpl; [reflexivity|].
  destruct (Qle_bool x z); simpl; [reflexivity | now rewrite IH].
Qed.

Lemma length_np_sort (l : list Q) : List.length (Np.sort l) = List.length l.
Proof.
  induction l as [|x l IH]; simpl; [reflexivity|].
  fold (Np.sort l). now rewrite length_np_insert, IH.
Qed.

Lemma order_statistic_at_most (xs : list Q) (m : Q) (i : nat) :
  (forall y, In y xs -> y <= m) -> (i < List.length xs)%nat -> nth i (Np.sort xs) 0 <= m.
Proof.
  intros H Hi. apply H. apply In_np_sort. apply nth_In. now rewrite length_np_sort.
Qed.

Lemma quantile_at_most (xs : list Q) (q m : Q) :
  0 <= q -> q <= 1 -> xs <> [] -> (forall y, In y xs -> y <= m) ->
  exists v, Np.quantile xs q = Finite v /\ v <= m.
Proof.
  intros Hq0 Hq1 Hne Hm. unfold Np.quantile.
  destruct xs as [|x0 xs0] eqn:Exs; [congruence|]. rewrite <- Exs in *. cbv zeta.
  set (n := List.length xs).
  assert (Hn : (0 < n)%nat) by (unfold n; rewrite Exs; simpl; lia).
  set (h := inject_Z (Z.of_nat (n - 1)) * q).
  assert (Hk : 0 <= inject_Z (Z.of_nat (n - 1))).
  { change 0 with (inject_Z 0). rewrite <- Zle_Qle. lia. }
  assert (Hh0 : 0 <= h) by (unfold h; nra).
  assert (Hh1 : h <= inject_Z (Z.of_nat (n - 1))) by (unfold h; nra).
  assert (Hf0 : (0 <= Qfloor h)%Z).
  { rewrite <- (Qfloor_Z 0). now apply Qfloor_resp_le. }
  assert (Hf1 : (Qfloor h <= Z.of_nat (n - 1))%Z).
  { rewrite <- (Qfloor_Z (Z.of_nat (n - 1))). now apply Qfloor_resp_le. }
  assert (Hfrac0 : 0 <= h - inject_Z (Qfloor h)).
  { pose proof (Qfloor_le h). lra. }
  assert (Hfrac1 : h - inject_Z (Qfloor h) <= 1).
  { pose proof (Qlt_floor h) as Hlt. rewrite inject_Z_plus in Hlt.
    change (inject_Z 1) with 1 in Hlt. lra. }
  set (frac := h - inject_Z (Qfloor h)) in *.
  assert (Ha : nth (Z.to_nat (Qfloor h)) (Np.sort xs) 0 <= m).
  { apply order_statistic_at_most; [exact Hm|]. fold n. lia. }
  assert (Hb : nth (Nat.min (S (Z.to_nat (Qfloor h))) (n - 1)) (Np.sort xs) 0 <= m).
  { apply order_statistic_at_most; [exact Hm|]. fold n. lia. }
  set (a := nth (Z.to_nat (Qfloor h)) (Np.sort xs) 0) in *.
  set (b := nth (Nat.min (S (Z.to_nat (Qfloor h))) (n - 1)) (Np.sort xs) 0) in *.
  eexists. split; [reflexivity|].
  assert (H1 : 0 <= (m - a) * (1 - frac)) by (apply Qmult_le_0_compat; lra).
  assert (H2 : 0 <= (m - b) * frac) by (apply Qmult_le_0_compat; lra).
  lra.
Qed.

Lemma median_at_most (xs : list Q) (m : Q) :
  xs <> [] -> (forall y, In y xs -> y <= m) ->
  exists v, Np.median xs = Finite v /\ v <= m.
Proof.
  intros Hne Hm. unfold Np.median.
  destruct xs as [|x0 xs0] eqn:Exs; [congruence|]. rewrite <- Exs in *. cbv zeta.
  set (n := List.length xs).
  assert (Hn : (0 < n)%nat) by (unfold n; rewrite Exs; simpl; lia).
  assert (Hd : (Nat.div2 n < n)%nat) by now apply Nat.lt_div2.
  destruct (Nat.odd n).
  - eexists. split; [reflexivity|]. now apply order_statistic_at_most.
  - eexists. split; [reflexivity|].
    assert (H1 : nth (Nat.div2 n - 1) (Np.sort xs) 0 <= m)
      by (apply order_statistic_at_most; [exact Hm | fold n; lia]).
    assert (H2 : nth (Nat.div2 n) (Np.sort xs) 0 <= m)
      by (apply order_statistic_at_most; [exact Hm | fold n; lia]).
    apply Qle_shift_div_r; lra.
Qed.

Lemma filter_shorter {A : Type} (f : A -> bool) (l : list A) (x : A) :
  In x l -> f x = false -> (List.length (filter f l) < List.length l)%nat.
Proof.
  induction l as [|a l IH]; intros Hin Hf; [destruct Hin|].
  cbn [filter List.length]. pose proof (filter_length_le f l) as Hle.
  destruct Hin as [-> | Hin].
  - rewrite Hf. lia.
  - specialize (IH Hin Hf). destruct (f a); cbn [List.length]; lia.
Qed.

(** X15. A menu with the largest total quantity of the table is never among
    the low performers nor among the high-margin/low-volume menus: the counts
    that the two rules print are always smaller than the number of menus. *)
Theorem best_seller_never_flagged (ma : MenuTable) (best : MenuRow)
    (Hin : In best ma)
    (Hbest : forall r, In r ma -> (Total_Qty r <= Total_Qty best)%Z) :
  ~ In best (PDFExporter.low_performers ma)
  /\ ~ In best (PDFExporter.high_margin_low_volume ma)
  /\ (List.length (PDFExporter.low_performers ma) < List.length ma)%nat
  /\ (List.length (PDFExporter.high_margin_low_volume ma) < List.length ma)%nat.
Proof.
  assert (Hne : qty_column ma <> []).
  { unfold qty_column. destruct ma; [destruct Hin | discriminate]. }
  assert (Hmax : forall y, In y (qty_column ma) -> y <= inject_Z (Total_Qty best)).
  { intros y Hy. unfold qty_column in Hy. apply in_map_iff in Hy.
    destruct Hy as [r [<- Hr]]. rewrite <- Zle_Qle. now apply Hbest. }
  assert (Hlow : Np.lt (PDFExporter.qty_of best) (Np.quantile (qty_column ma) (1 # 5)) = false).
  { destruct (quantile_at_most (qty_column ma) (1 # 5) _ ltac:(lra) ltac:(lra) Hne Hmax)
      as [v [-> Hv]].
    unfold PDFExporter.qty_of. cbn [Np.lt Np.gt]. now apply Qlt_bool_false. }
  assert (Hmed : Np.lt (PDFExporter.qty_of best) (Np.median (qty_column ma)) = false).
  { destruct (median_at_most (qty_column ma) _ Hne Hmax) as [v [-> Hv]].
    unfold PDFExporter.qty_of. cbn [Np.lt Np.gt]. now apply Qlt_bool_false. }
  assert (Hhm : PDFExporter.is_high_margin_low_volume ma best = false).
  { unfold PDFExporter.is_high_margin_low_volume. rewrite Hmed. apply andb_false_r. }
  conjuncts.
  - unfold PDFExporter.low_performers. rewrite filter_In. intros [_ H]. congruence.
  - unfold PDFExporter.high_margin_low_volume. rewrite filter_In. intros [_ H]. congruence.
  - unfold PDFExporter.low_performers. now apply (filter_shorter _ _ best).
  - unfold PDFExporter.high_margin_low_volume. now apply (filter_shorter _ _ best).
Qed.

Lemma best_seller_never_flagged_witness :
  let ma := Analyzer.get_comprehensive_menu_analysis ranked_sales in
  (List.length (PDFExporter.low_performers ma) < 6)%nat
  /\ (List.length (PDFExporter.high_margin_low_volume ma) < 6)%nat.
Proof.
  intros ma.
  destruct (best_seller_never_flagged ma (nth 2 ma (mkMenuRow "" 0 0 0 0 0 0)))
    as [_ [_ [H1 H2]]].
  - vm_compute. right. right. now left.
  - intros r H. vm_compute in H.
    repeat (destruct H as [<- | H]; [vm_compute; discriminate|]). destruct H.
  - split; [exact H1 | exact H2].
Defined.

(* ------------------------------------------------------------------ *)
(** ** The two percentile rules *)

Lemma np_insert_perm (x : Q) (l : list Q) : Permutation (Np.insert_sorted x l) (x :: l).
Proof.
  induction l as [|y l IH]; simpl.
  - apply Permutation_refl.
  - destruct (Qle_bool x y).
    + apply Permutation_refl.
    + eapply Permutation_trans; [apply perm_skip, IH | apply perm_swap].
Qed.

Lemma np_sort_perm (l : list Q) : Permutation (Np.sort l) l.
Proof.
  induction l as [|x l IH]; simpl.
  - apply Permutation_refl.
  - fold (Np.sort l).
    eapply Permutation_trans; [apply np_insert_perm | now apply perm_skip].
Qed.

Lemma np_insert_ascending (x : Q) (l : list Q) :
  StronglySorted Qle l -> StronglySorted Qle (Np.insert_sorted x l).
Proof.
  induction l as [|y l IH]; intros Hs; simpl.
  - repeat constructor.
  - inversion Hs as [|? ? Hs' Hy]; subst.
    destruct (Qle_bool x y) eqn:E.
    + apply Qle_bool_iff in E. constructor; [exact Hs|].
      constructor; [exact E|].
      rewrite Forall_forall in *. intros z Hz.
      apply Qle_trans with y; [exact E | now apply Hy].
    + assert (Hyx : y <= x).
      { apply Qlt_le_weak, Qlt_bool_true. unfold Np.Qlt_bool. now rewrite E. }
      constructor; [now apply IH|].
      rewrite Forall_forall in *. intros z Hz.
      apply In_np_insert in Hz. destruct Hz as [-> | Hz]; [exact Hyx | now apply Hy].
Qed.

Lemma np_sort_ascending (l : list Q) : StronglySorted Qle (Np.sort l).
Proof.
  induction l as [|x l IH]; simpl.
  - constructor.
  - fold (Np.sort l). now apply np_insert_ascending.
Qed.

Lemma ceiling_next_to_floor (h : Q) :
  (Qfloor h <= Qceiling h <= Qfloor h + 1)%Z.
Proof.
  pose proof (Qfloor_le h) as H1. pose proof (Qle_ceiling h) as H2.
  pose proof (Qceiling_lt h) as H3. pose proof (Qlt_floor h) as H4.
  split.
  - rewrite Zle_Qle. now apply Qle_trans with h.
  - assert (H : (Qceiling h - 1 < Qfloor h + 1)%Z).
    { rewrite Zlt_Qlt. now apply Qlt_trans with h. }
    lia.
Qed.

(** [Series.quantile] computes the interpolated value at its position. *)
Lemma quantile_is_percentile (xs : list Q) (q : Q) :
  0 <= q -> q <= 1 -> xs <> [] ->
  exists v, Np.quantile xs q = Finite v /\ is_percentile xs q v.
Proof.
  intros Hq0 Hq1 Hne. unfold Np.quantile, is_percentile.
  destruct xs as [|x0 xs0] eqn:Exs; [congruence|]. rewrite <- Exs in *. cbv zeta.
  eexists. split; [reflexivity|].
  exists (Np.sort xs). split; [apply np_sort_perm|]. split; [apply np_sort_ascending|].
  set (n := List.length xs).
  assert (Hn : (0 < n)%nat) by (unfold n; rewrite Exs; simpl; lia).
  set (h := inject_Z (Z.of_nat (n - 1)) * q).
  assert (Hk : 0 <= inject_Z (Z.of_nat (n - 1))).
  { change 0 with (inject_Z 0). rewrite <- Zle_Qle. lia. }
  assert (Hh0 : 0 <= h) by (unfold h; nra).
  assert (Hh1 : h <= inject_Z (Z.of_nat (n - 1))) by (unfold h; nra).
  assert (Hf0 : (0 <= Qfloor h)%Z).
  { rewrite <- (Qfloor_Z 0). now apply Qfloor_resp_le. }
  assert (Hc1 : (Qceiling h <= Z.of_nat (n - 1))%Z).
  { rewrite <- (Qceiling_Z (Z.of_nat (n - 1))). now apply Qceiling_resp_le. }
  pose proof (ceiling_next_to_floor h) as Hcf.
  destruct (Z.eq_dec (Qceiling h) (Qfloor h)) as [E | E].
  - assert (Hfrac : h - inject_Z (Qfloor h) == 0).
    { pose proof (Qfloor_le h) as H1. pose proof (Qle_ceiling h) as H2.
      rewrite E in H2. lra. }
    rewrite E, Hfrac. ring.
  - assert (Ec : Qceiling h = (Qfloor h + 1)%Z) by lia.
    assert (Enat : Z.to_nat (Qceiling h) = S (Z.to_nat (Qfloor h))).
    { rewrite Ec. rewrite Z2Nat.inj_add by lia. simpl. lia. }
    assert (Emin : Nat.min (S (Z.to_nat (Qfloor h))) (n - 1) = S (Z.to_nat (Qfloor h))).
    { apply Nat.min_l. lia. }
    rewrite Emin, Enat. reflexivity.
Qed.

(** [Series.median] computes the middle value. *)
Lemma median_is_median (xs : list Q) :
  xs <> [] -> exists v, Np.median xs = Finite v /\ is_median xs v.
Proof.
  intros Hne. unfold Np.median, is_median.
  destruct xs as [|x0 xs0] eqn:Exs; [congruence|]. rewrite <- Exs in *. cbv zeta.
  set (n := List.length xs).
  rewrite <- (Nat.negb_odd n), <- !Nat.div2_div.
  destruct (Nat.odd n); eexists; (split; [reflexivity|]);
    exists (Np.sort xs); (split; [apply np_sort_perm|]);
    (split; [apply np_sort_ascending|]); cbn [negb]; reflexivity.
Qed.

Lemma underperform_entry_reported (ma : MenuTable) (data : DataFrame) :
  let out := PDFExporter._generate_business_recommendations ma data in
  match PDFExporter.low_performers ma with
  | [] => count_title PDFExporter.underperform_title out = 0%nat
  | _ :: _ =>
      count_title PDFExporter.underperform_title out = 1%nat
      /\ In (underperform_entry (List.length (PDFExporter.low_performers ma))) out
  end.
Proof.
  intros out. subst out.
  rewrite count_title_recommendations, count_rule_concentration,
    count_rule_low_performers, count_rule_high_margin, recommendations_by_rule.
  unfold rule_low_performers.
  destruct (PDFExporter.low_performers ma) as [|l0 low].
  - destruct (Np.gt (PDFExporter.concentration ma data) (Finite 60)),
      (PDFExporter.high_margin_low_volume ma); reflexivity.
  - split.
    + destruct (Np.gt (PDFExporter.concentration ma data) (Finite 60)),
        (PDFExporter.high_margin_low_volume ma); reflexivity.
    + apply in_or_app. right. now left.
Qed.

Lemma high_margin_entry_reported (ma : MenuTable) (data : DataFrame) :
  let out := PDFExporter._generate_business_recommendations ma data in
  let sel := PDFExporter.high_margin_low_volume ma in
  match sel with
  | [] => count_title PDFExporter.high_margin_title out = 0%nat
  | _ :: _ =>
      count_title PDFExporter.high_margin_title out = 1%nat
      /\ In (high_margin_entry (List.length sel) (col_sum Total_Margin sel)) out
  end.
Proof.
  intros out sel. subst out sel.
  rewrite count_title_recommendations, count_rule_concentration,
    count_rule_low_performers, count_rule_high_margin, recommendations_by_rule.
  unfold rule_high_margin.
  destruct (PDFExporter.high_margin_low_volume ma) as [|h0 sel].
  - destruct (Np.gt (PDFExporter.concentration ma data) (Finite 60)),
      (PDFExporter.low_performers ma); reflexivity.
  - split.
    + destruct (Np.gt (PDFExporter.concentration ma data) (Finite 60)),
        (PDFExporter.low_performers ma); reflexivity.
    + apply in_or_app. right. apply in_or_app. right. now left.
Qed.

Lemma percentile_rules_without_menus (data : DataFrame) :
  count_title PDFExporter.underperform_title
    (PDFExporter._generate_business_recommendations [] data) = 0%nat
  /\ count_title PDFExporter.high_margin_title
       (PDFExporter._generate_business_recommendations [] data) = 0%nat.
Proof.
  pose proof (underperform_entry_reported [] data) as H1.
  pose proof (high_margin_entry_reported [] data) as H2.
  split; [exact H1 | exact H2].
Qed.

(** C4. The bottom quintile by quantity is the set of the menus whose total
    quantity is below the 20th percentile [p] of the per-menu quantities,
    [p] being the value interpolated at position (n - 1) / 5 of the
    quantities in ascending order.  The rule selects exactly these menus;
    when there is at least one, the report carries exactly one "Optimasi Menu
    Underperform" entry, whose description starts with their count; when
    there is none, or no menu at all, the report carries no such entry. *)
Theorem underperform_rule (ma : MenuTable) (data : DataFrame) :
  let out := PDFExporter._generate_business_recommendations ma data in
  let low := PDFExporter.low_performers ma in
  (ma = [] -> count_title PDFExporter.underperform_title out = 0%nat)
  /\ (ma <> [] ->
      exists p : Q,
        Np.quantile (map (fun r => inject_Z (Total_Qty r)) ma) (1 # 5) = Finite p
        /\ is_percentile (map (fun r => inject_Z (Total_Qty r)) ma) (1 # 5) p
        /\ low = filter (fun r => negb (Qle_bool p (inject_Z (Total_Qty r)))) ma
        /\ (forall r, In r low <-> In r ma /\ inject_Z (Total_Qty r) < p)
        /\ match low with
           | [] => count_title PDFExporter.underperform_title out = 0%nat
           | _ :: _ =>
               count_title PDFExporter.underperform_title out = 1%nat
               /\ In (underperform_entry (List.length low)) out
               /\ dict_get "description" (underperform_entry (List.length low))
                  = Some (PyStr (Fmt.str_nat (List.length low) ++
                       " menu memiliki penjualan rendah. Pertimbangkan redesign, repricing, atau discontinue."))
           end).
Proof.
  intros out low. split.
  - intros ->. apply percentile_rules_without_menus.
  - intros Hne.
    destruct (quantile_is_percentile (map (fun r => inject_Z (Total_Qty r)) ma) (1 # 5))
      as [p [Hq Hp]]; [lra | lra | destruct ma; [congruence | discriminate] |].
    exists p. split; [exact Hq|]. split; [exact Hp|].
    assert (Hlow : low = filter (fun r => negb (Qle_bool p (inject_Z (Total_Qty r)))) ma).
    { subst low. unfold PDFExporter.low_performers, qty_column. rewrite Hq. reflexivity. }
    split; [exact Hlow|]. split.
    + intros r. rewrite Hlow, filter_In.
      change (negb (Qle_bool p (inject_Z (Total_Qty r))))
        with (Np.Qlt_bool (inject_Z (Total_Qty r)) p).
      now rewrite Qlt_bool_true.
    + pose proof (underperform_entry_reported ma data) as H. cbv zeta in H.
      subst out low. destruct (PDFExporter.low_performers ma) as [|l0 l].
      * exact H.
      * destruct H as [H1 H2]. split; [exact H1|]. split; [exact H2 | reflexivity].
Qed.

Lemma underperform_rule_witness :
  exists p : Q,
    is_percentile (map (fun r => inject_Z (Total_Qty r))
                       (Analyzer.get_comprehensive_menu_analysis late_star_sales)) (1 # 5) p
    /\ p == 2
    /\ map menu (PDFExporter.low_performers
                   (Analyzer.get_comprehensive_menu_analysis late_star_sales))
       = ["Ayam Bakar"]
    /\ count_title PDFExporter.underperform_title
         (PDFExporter._generate_business_recommendations
            (Analyzer.get_comprehensive_menu_analysis late_star_sales) late_star_sales)
       = 1%nat.
Proof.
  destruct (underperform_rule (Analyzer.get_comprehensive_menu_analysis late_star_sales)
              late_star_sales) as [_ H].
  destruct H as [p [Hq [Hp [Hlow [_ Hout]]]]]; [discriminate|].
  exists p. split; [exact Hp|].
  vm_compute in Hq. injection Hq as <-.
  split; [reflexivity|].
  split; [vm_compute; reflexivity|].
  assert (E : PDFExporter.low_performers
                (Analyzer.get_comprehensive_menu_analysis late_star_sales) <> []).
  { vm_compute. discriminate. }
  destruct (PDFExporter.low_performers
              (Analyzer.get_comprehensive_menu_analysis late_star_sales));
    [congruence | exact (proj1 Hout)].
Defined.

(** C3. The rule selects exactly the menus whose margin percentage is above
    the 80th percentile [p] of the per-menu margin percentages and whose
    total quantity is below the median [m] of the per-menu quantities, [p]
    being the value interpolated at position (n - 1) * 4 / 5 of the margin
    percentages in ascending order and [m] the middle quantity.  When there
    is at least one such menu, the report carries exactly one "Marketing
    Focus Menu High-Margin" entry, whose potential_saving quotes twice the
    summed margin of exactly these menus; when there is none, or no menu at
    all, the report carries no such entry. *)
Theorem high_margin_rule (ma : MenuTable) (data : DataFrame) :
  let out := PDFExporter._generate_business_recommendations ma data in
  let sel := PDFExporter.high_margin_low_volume ma in
  (ma = [] -> count_title PDFExporter.high_margin_title out = 0%nat)
  /\ (ma <> [] ->
      exists p m : Q,
        Np.quantile (map Margin_Percentage ma) (4 # 5) = Finite p
        /\ is_percentile (map Margin_Percentage ma) (4 # 5) p
        /\ Np.median (map (fun r => inject_Z (Total_Qty r)) ma) = Finite m
        /\ is_median (map (fun r => inject_Z (Total_Qty r)) ma) m
        /\ sel = filter (fun r => negb (Qle_bool (Margin_Percentage r) p)
                                  && negb (Qle_bool m (inject_Z (Total_Qty r)))) ma
        /\ (forall r, In r sel <->
              In r ma /\ p < Margin_Percentage r /\ inject_Z (Total_Qty r) < m)
        /\ match sel with
           | [] => count_title PDFExporter.high_margin_title out = 0%nat
           | _ :: _ =>
               count_title PDFExporter.high_margin_title out = 1%nat
               /\ In (high_margin_entry (List.length sel) (Np.sum (map Total_Margin sel))) out
               /\ dict_get "potential_saving"
                    (high_margin_entry (List.length sel) (Np.sum (map Total_Margin sel)))
                  = Some (PyStr ("Potensi peningkatan margin Rp " ++
                                 Fmt.comma_0f (Finite (Np.sum (map Total_Margin sel) * 2))))
           end).
Proof.
  intros out sel. split.
  - intros ->. apply percentile_rules_without_menus.
  - intros Hne.
    destruct (quantile_is_percentile (map Margin_Percentage ma) (4 # 5))
      as [p [Hq Hp]]; [lra | lra | destruct ma; [congruence | discriminate] |].
    destruct (median_is_median (map (fun r => inject_Z (Total_Qty r)) ma))
      as [m [Hmed Hm]]; [destruct ma; [congruence | discriminate] |].
    exists p, m. split; [exact Hq|]. split; [exact Hp|].
    split; [exact Hmed|]. split; [exact Hm|].
    assert (Hsel : sel = filter (fun r => negb (Qle_bool (Margin_Percentage r) p)
                                  && negb (Qle_bool m (inject_Z (Total_Qty r)))) ma).
    { subst sel. unfold PDFExporter.high_margin_low_volume,
        PDFExporter.is_high_margin_low_volume, qty_column.
      rewrite Hq, Hmed. reflexivity. }
    split; [exact Hsel|]. split.
    + intros r. rewrite Hsel, filter_In, andb_true_iff.
      change (negb (Qle_bool (Margin_Percentage r) p))
        with (Np.Qlt_bool p (Margin_Percentage r)).
      change (negb (Qle_bool m (inject_Z (Total_Qty r))))
        with (Np.Qlt_bool (inject_Z (Total_Qty r)) m).
      now rewrite !Qlt_bool_true.
    + pose proof (high_margin_entry_reported ma data) as H. cbv zeta in H.
      subst out sel. destruct (PDFExporter.high_margin_low_volume ma) as [|h0 l].
      * exact H.
      * destruct H as [H1 H2]. split; [exact H1|]. split; [exact H2 | reflexivity].
Qed.

Lemma high_margin_rule_witness :
  exists p m : Q,
    is_percentile (map Margin_Percentage
                       (Analyzer.get_comprehensive_menu_analysis late_star_sales)) (4 # 5) p
    /\ is_median (map (fun r => inject_Z (Total_Qty r))
                      (Analyzer.get_comprehensive_menu_analysis late_star_sales)) m
    /\ p == 50 /\ m == 7 # 2
    /\ map (fun r => (menu r, Total_Qty r))
           (PDFExporter.high_margin_low_volume
              (Analyzer.get_comprehensive_menu_analysis late_star_sales))
       = [("Ayam Bakar", 1%Z)]
    /\ count_title PDFExporter.high_margin_title
         (PDFExporter._generate_business_recommendations
            (Analyzer.get_comprehensive_menu_analysis late_star_sales) late_star_sales)
       = 1%nat.
Proof.
  destruct (high_margin_rule (Analyzer.get_comprehensive_menu_analysis late_star_sales)
              late_star_sales) as [_ H].
  destruct H as [p [m [Hq [Hp [Hmed [Hm [_ [_ Hout]]]]]]]]; [discriminate|].
  exists p, m. split; [exact Hp|]. split; [exact Hm|].
  vm_compute in Hq. injection Hq as <-.
  vm_compute in Hmed. injection Hmed as <-.
  split; [reflexivity|]. split; [reflexivity|].
  split; [vm_compute; reflexivity|].
  assert (E : PDFExporter.high_margin_low_volume
                (Analyzer.get_comprehensive_menu_analysis late_star_sales) <> []).
  { vm_compute. discriminate. }
  destruct (PDFExporter.high_margin_low_volume
              (Analyzer.get_comprehensive_menu_analysis late_star_sales));
    [congruence | exact (proj1 Hout)].
Defined.

(* ------------------------------------------------------------------ *)
(** ** Printing the recommendations *)

Lemma rec_fields_of_record (i : nat) (rec : pydict) :
  well_formed_recommendation rec ->
  exists t d p, PDFExporter.rec_fields i rec = Some (i, t, d, p).
Proof.
  intros [Hkeys _].
  destruct rec as [|[k1 v1] [|[k2 v2] [|[k3 v3] [|? ?]]]]; try discriminate.
  injection Hkeys as -> -> ->. exists v1, v2, v3. reflexivity.
Qed.

Lemma entries_of_records (start : nat) (recs : list pydict) :
  Forall well_formed_recommendation recs ->
  exists entries,
    PDFExporter.all_or_none
      (map (fun ir => PDFExporter.rec_fields (fst ir) (snd ir))
           (combine (seq start (List.length recs)) recs)) = Some entries
    /\ map (fun e => fst (fst (fst e))) entries = seq start (List.length recs).
Proof.
  revert start. induction recs as [|rec recs IH]; intros start H.
  - exists []. split; reflexivity.
  - inversion H as [|? ? Hrec Hrecs]; subst.
    destruct (rec_fields_of_record start rec Hrec) as [t [d [p E]]].
    destruct (IH (S start) Hrecs) as [entries [E' Hn]].
    exists ((start, t, d, p) :: entries).
    cbn [List.length seq combine map PDFExporter.all_or_none fst snd].
    rewrite E, E'. split; [reflexivity|]. cbn [map fst]. now rewrite Hn.
Qed.

(** X16. Printing the recommendations reads the three keys of every entry.
    An entry lacks a key exactly when the reading fails; the entries of the
    report's business rules, alone or after those of the COGS rule engine,
    are always read in full, and they are numbered 1, 2, 3, ... in their
    order. *)
Theorem recommendations_are_printed (c : Analyzer.Config) (ma : MenuTable) (data : DataFrame) :
  (forall i rec,
     PDFExporter.rec_fields i rec = None
     <-> (dict_get "title" rec = None \/ dict_get "description" rec = None
          \/ dict_get "potential_saving" rec = None))
  /\ (exists entries,
        PDFExporter._create_recommendations_entries
          (PDFExporter._generate_business_recommendations ma data) = Some entries
        /\ map (fun e => fst (fst (fst e))) entries
           = seq 1 (List.length (PDFExporter._generate_business_recommendations ma data)))
  /\ (exists entries,
        PDFExporter._create_recommendations_entries
          (PDFExporter.all_recommendations c data) = Some entries
        /\ map (fun e => fst (fst (fst e))) entries
           = seq 1 (List.length (PDFExporter.all_recommendations c data))).
Proof.
  conjuncts.
  - intros i rec. unfold PDFExporter.rec_fields.
    destruct (dict_get "title" rec), (dict_get "description" rec),
      (dict_get "potential_saving" rec); split; intros H; try discriminate;
      try reflexivity; auto; destruct H as [H | [H | H]]; discriminate.
  - apply entries_of_records, business_recommendations_shape.
  - apply entries_of_records. unfold PDFExporter.all_recommendations.
    apply Forall_app. split.
    + apply cogs_recommendations_shape.
    + apply business_recommendations_shape.
Qed.

(* ------------------------------------------------------------------ *)
(** ** A short menu *)

(** X14. When the per-menu table has at most five menus, its revenues sum to
    the total revenue of the dataset and that total is positive, the
    concentration is 100 and the report always carries the "Diversifikasi
    Menu Portfolio" entry: the first five rows are the whole table. *)
Theorem few_menus_always_diversify (ma : MenuTable) (data : DataFrame)
    (Hfew : (List.length ma <= 5)%nat)
    (Hsame : col_sum Total_Revenue ma == col_sum Total data)
    (Hrevenue : 0 < col_sum Total data) :
  let out := PDFExporter._generate_business_recommendations ma data in
  np_eq (PDFExporter.concentration ma data) (Finite 100)
  /\ count_title PDFExporter.diversify_title out = 1%nat
  /\ In (diversify_entry (PDFExporter.concentration ma data)) out.
Proof.
  intros out. subst out.
  assert (Hall : firstn 5 ma = ma) by now apply firstn_all2.
  assert (Hnz : ~ col_sum Total data == 0)
    by (intros E; rewrite E in Hrevenue; now apply (Qlt_irrefl 0)).
  assert (Hgt : Np.gt (PDFExporter.concentration ma data) (Finite 60) = true).
  { apply concentration_reading; [exact Hrevenue|]. rewrite Hall, Hsame. lra. }
  conjuncts.
  - unfold PDFExporter.concentration, Np.div. cbv zeta. rewrite Hall.
    destruct (Qeq_bool (col_sum Total data) 0) eqn:E; [now apply Qeq_bool_iff in E|].
    cbn [Np.mul np_eq]. rewrite Hsame. field. exact Hnz.
  - rewrite count_title_recommendations, count_rule_concentration,
      count_rule_low_performers, count_rule_high_margin, Hgt.
    destruct (PDFExporter.low_performers ma), (PDFExporter.high_margin_low_volume ma);
      reflexivity.
  - rewrite recommendations_by_rule. unfold rule_concentration. rewrite Hgt. now left.
Qed.

Lemma few_menus_always_diversify_witness :
  count_title PDFExporter.diversify_title
    (PDFExporter._generate_business_recommendations
       (Analyzer.get_comprehensive_menu_analysis one_menu_sales) one_menu_sales) = 1%nat.
Proof.
  destruct (few_menus_always_diversify
              (Analyzer.get_comprehensive_menu_analysis one_menu_sales) one_menu_sales)
    as [_ [H _]].
  - vm_compute. lia.
  - vm_compute. reflexivity.
  - reflexivity.
  - exact H.
Defined.

(* ------------------------------------------------------------------ *)
(** ** Ties between categories *)

Lemma ascii_compare_refl (x : ascii) : Ascii.compare x x = Eq.
Proof. unfold Ascii.compare. apply N.compare_refl. Qed.

Lemma ascii_compare_lt_trans (x y z : ascii) :
  Ascii.compare x y = Lt -> Ascii.compare y z = Lt -> Ascii.compare x z = Lt.
Proof.
  unfold Ascii.compare. rewrite !N.compare_lt_iff. apply N.lt_trans.
Qed.

Lemma string_leb_trans (a b c : string) :
  String.leb a b = true -> String.leb b c = true -> String.leb a c = true.
Proof.
  unfold String.leb. revert b c.
  induction a as [|x a IH]; intros [|y b] [|z c]; cbn [String.compare];
    try discriminate; try reflexivity.
  destruct (Ascii.compare x y) eqn:Exy; try discriminate;
    destruct (Ascii.compare y z) eqn:Eyz; try discriminate.
  - apply Ascii.compare_eq_iff in Exy, Eyz. subst y z.
    rewrite ascii_compare_refl. apply IH.
  - apply Ascii.compare_eq_iff in Exy. subst y. rewrite Eyz. reflexivity.
  - apply Ascii.compare_eq_iff in Eyz. subst z. rewrite Exy. reflexivity.
  - rewrite (ascii_compare_lt_trans x y z Exy Eyz). reflexivity.
Qed.

Lemma string_leb_false (a b : string) : String.leb a b = false -> String.leb b a = true.
Proof.
  intros H. destruct (String.leb_total a b) as [H' | H']; [congruence | exact H'].
Qed.

Lemma sorted_after {K : Type} (R : K -> K -> Prop) (l1 l2 : list K) (x : K) :
  StronglySorted R (l1 ++ x :: l2) -> forall y, In y l2 -> R x y.
Proof.
  induction l1 as [|a l1 IH]; intros Hs y Hy.
  - inversion Hs as [|? ? _ Hx]; subst. rewrite Forall_forall in Hx. now apply Hx.
  - inversion Hs; subst. now apply IH.
Qed.

Lemma idxmax_from_first (l1 l2 s : list (string * Q)) (best : string * Q) :
  (forall kv, In kv l1 -> snd kv < snd best) ->
  (forall kv, In kv l2 -> snd kv <= snd best) ->
  exists l1' v l2',
    (l1 ++ best :: l2 ++ s = l1' ++ (idxmax_from best s, v) :: l2')%list
    /\ (forall kv, In kv l1' -> snd kv < v)
    /\ (forall kv, In kv l2' -> snd kv <= v).
Proof.
  revert l1 l2 best. induction s as [|kv s IH]; intros l1 l2 best H1 H2.
  - exists l1, (snd best), l2. rewrite app_nil_r. cbn [idxmax_from].
    rewrite <- surjective_pairing. now repeat split.
  - cbn [idxmax_from]. destruct (Np.Qlt_bool (snd best) (snd kv)) eqn:E.
    + apply Qlt_bool_true in E.
      destruct (IH (l1 ++ best :: l2)%list [] kv) as [l1' [v [l2' [Heq H]]]].
      * intros x Hx. apply in_app_or in Hx. destruct Hx as [Hx | [<- | Hx]].
        -- eapply Qlt_trans; [now apply H1 | exact E].
        -- exact E.
        -- eapply Qle_lt_trans; [now apply H2 | exact E].
      * intros x [].
      * exists l1', v, l2'. split; [|exact H].
        rewrite <- Heq, <- app_assoc. reflexivity.
    + apply Qlt_bool_false in E.
      destruct (IH l1 (l2 ++ [kv])%list best) as [l1' [v [l2' [Heq H]]]].
      * exact H1.
      * intros x Hx. apply in_app_or in Hx. destruct Hx as [Hx | [<- | []]];
          [now apply H2 | exact E].
      * exists l1', v, l2'. split; [|exact H].
        rewrite <- Heq, <- app_assoc. reflexivity.
Qed.

Lemma groupby_labels (key : Row -> string) (val : Row -> Q) (df : DataFrame) :
  map fst (groupby_sum key val df) = group_keys String.eqb String.leb (map key df).
Proof. unfold groupby_sum. rewrite map_map. apply map_id. Qed.

(** X17. When several categories have the largest summed revenue,
    [_get_top_category] names the first of them in the order of the labels:
    every category of the dataset whose revenue is not smaller than that of
    the category named comes after it, or is it. *)
Theorem top_category_tie (data : DataFrame) :
  match PDFExporter._get_top_category data with
  | Ok c =>
      forall r, In r data ->
        category_total data c <= category_total data (Menu_Category r) ->
        String.leb c (Menu_Category r) = true
  | Raise _ => False
  end.
Proof.
  unfold PDFExporter._get_top_category.
  destruct (groupby_sum Menu_Category Total data) as [|kv s] eqn:Hs.
  - cbn. intros r Hr _. exfalso.
    assert (H : In (Menu_Category r, category_total data (Menu_Category r))
                   (groupby_sum Menu_Category Total data)).
    { apply In_groupby_sum. split; [eauto | reflexivity]. }
    rewrite Hs in H. exact H.
  - cbn [PDFExporter.is_empty negb idxmax]. intros r Hr Hge.
    destruct (idxmax_from_first [] [] s kv) as [l1 [v [l2 [Heq [Hl1 Hl2]]]]];
      [intros x [] | intros x [] |].
    cbn [app] in Heq. rewrite <- Hs in Heq.
    set (c := idxmax_from kv s) in *.
    assert (Hc : In (c, v) (groupby_sum Menu_Category Total data))
      by (rewrite Heq; apply in_or_app; right; now left).
    apply In_groupby_sum in Hc. destruct Hc as [_ Hv].
    fold (category_total data c) in Hv.
    assert (Hr' : In (Menu_Category r, category_total data (Menu_Category r))
                    (groupby_sum Menu_Category Total data)).
    { apply In_groupby_sum. split; [eauto | reflexivity]. }
    rewrite Heq in Hr'. apply in_app_or in Hr'. destruct Hr' as [Hr' | [Hr' | Hr']].
    + apply Hl1 in Hr'. cbn [snd] in Hr'. rewrite Hv in Hr'.
      exfalso. now apply (Qlt_not_le _ _ Hr').
    + injection Hr' as <- _.
      destruct (String.leb_total c c) as [H | H]; exact H.
    + assert (Hsorted : StronglySorted (fun a b => String.leb a b = true)
                          (map fst (groupby_sum Menu_Category Total data))).
      { rewrite groupby_labels. unfold group_keys.
        apply sort_keys_sorted; [exact string_leb_false | exact string_leb_trans]. }
      rewrite Heq, map_app in Hsorted. cbn [map fst] in Hsorted.
      apply (sorted_after _ _ _ _ Hsorted (Menu_Category r)).
      apply (in_map fst) in Hr'. exact Hr'.
Qed.

(* ------------------------------------------------------------------ *)
(** ** The best seller box of the Overview *)

Lemma menu_analysis_menus (data : DataFrame) (row : MenuRow) :
  In row (Analyzer.get_comprehensive_menu_analysis data) ->
  exists r, In r data /\ Menu r = menu row.
Proof.
  unfold Analyzer.get_comprehensive_menu_analysis, Analyzer.menu_groups.
  rewrite in_map_iff. intros [k [<- Hk]].
  rewrite (In_group_keys _ String.eqb String.leb String.eqb_eq), in_map_iff in Hk.
  destruct Hk as [r [Hr Hin]]. exists r. now split.
Qed.

Lemma menu_analysis_length (data : DataFrame) :
  data <> [] -> Analyzer.get_comprehensive_menu_analysis data <> [].
Proof.
  intros Hne E. destruct data as [|r data]; [congruence|].
  assert (H : In (Menu r) (group_keys String.eqb String.leb (map Menu (r :: data)))).
  { rewrite (In_group_keys _ String.eqb String.leb String.eqb_eq). now left. }
  unfold Analyzer.get_comprehensive_menu_analysis, Analyzer.menu_groups in E.
  apply (in_map (fun k => Analyzer.menu_row k
           (filter (fun x => String.eqb (Menu x) k) (r :: data)))) in H.
  rewrite E in H. exact H.
Qed.

Lemma ranking_head (le : MenuRow -> MenuRow -> bool) (n : nat) (data : DataFrame) :
  data <> [] ->
  exists row rest, firstn (S n) (sort_keys le (Analyzer.get_comprehensive_menu_analysis data))
                   = row :: rest
                   /\ exists r, In r data /\ Menu r = menu row.
Proof.
  intros Hne. pose proof (menu_analysis_length data Hne) as Hma.
  destruct (sort_keys le (Analyzer.get_comprehensive_menu_analysis data)) as [|row t] eqn:E.
  - exfalso. destruct (Analyzer.get_comprehensive_menu_analysis data) as [|x l]; [congruence|].
    assert (H : In x (sort_keys le (x :: l))) by (apply In_sort_keys; now left).
    rewrite E in H. exact H.
  - exists row, (firstn n t). split; [reflexivity|].
    apply menu_analysis_menus. rewrite <- (In_sort_keys _ le), E. now left.
Qed.

(** X18. With the analyzer's ranking of the best sellers modelled from the
    spec, the "Menu Terlaris" box of the Overview raises IndexError exactly
    on the dataset without rows, where the report prints "N/A" instead; on
    any other dataset both name a menu of the dataset. *)
Theorem overview_box_needs_rows (data : DataFrame) :
  (App.display_overview_top_menu data = Raise IndexError <-> data = [])
  /\ (data = [] ->
      PDFExporter.first_menu_or_na (Analyzer.get_top_performing_menus data 1) = Ok "N/A")
  /\ (data <> [] ->
      exists r1 r2, In r1 data /\ In r2 data
        /\ App.display_overview_top_menu data = Ok (Menu r1)
        /\ PDFExporter.first_menu_or_na (Analyzer.get_top_performing_menus data 1)
           = Ok (Menu r2)).
Proof.
  assert (Hrows : data <> [] ->
      exists r1 r2, In r1 data /\ In r2 data
        /\ App.display_overview_top_menu data = Ok (Menu r1)
        /\ PDFExporter.first_menu_or_na (Analyzer.get_top_performing_menus data 1)
           = Ok (Menu r2)).
  { intros Hne. unfold App.display_overview_top_menu, Analyzer.get_top_performing_menus.
    destruct (ranking_head (Analyzer.desc_by (fun r => inject_Z (Total_Qty r))) 4 data Hne)
      as [row1 [rest1 [E1 [r1 [Hr1 Hm1]]]]].
    destruct (ranking_head (Analyzer.desc_by (fun r => inject_Z (Total_Qty r))) 0 data Hne)
      as [row2 [rest2 [E2 [r2 [Hr2 Hm2]]]]].
    exists r1, r2. rewrite E1, E2, Hm1, Hm2. now repeat split. }
  conjuncts.
  - split.
    + intros H. destruct data as [|r data]; [reflexivity|].
      destruct Hrows as [r1 [_ [_ [_ [E _]]]]]; [discriminate | congruence].
    + intros ->. reflexivity.
  - intros ->. reflexivity.
  - exact Hrows.
Qed.

(* ------------------------------------------------------------------ *)
(** ** The first five rows and the five best sellers *)

Lemma sum_middle (a : Q) (l1 l2 : list Q) :
  Np.sum (l1 ++ a :: l2) == a + Np.sum (l1 ++ l2).
Proof.
  induction l1 as [|x l1 IH]; simpl.
  - reflexivity.
  - rewrite IH. ring.
Qed.

Lemma sorted_map {A : Type} (R : Q -> Q -> Prop) (f : A -> Q) (l : list A) :
  StronglySorted (fun a b => R (f a) (f b)) l -> StronglySorted R (map f l).
Proof.
  induction l as [|x l IH]; intros Hs; simpl.
  - constructor.
  - inversion Hs as [|? ? Hs' Hx]; subst. constructor; [now apply IH|].
    rewrite Forall_forall in *. intros y Hy. apply in_map_iff in Hy.
    destruct Hy as [b [<- Hb]]. now apply Hx.
Qed.

(** Of values in descending order the first [k] have the largest sum among
    all choices of as many of them. *)
Lemma largest_dominate (s : list Q) :
  StronglySorted (fun a b => b <= a) s ->
  forall (k : nat) (t rest : list Q),
    Permutation (t ++ rest) s -> List.length t = Nat.min k (List.length s) ->
    Np.sum t <= Np.sum (firstn k s).
Proof.
  induction s as [|a s IH]; intros Hs k t rest Hperm Hlen.
  - apply Permutation_sym, Permutation_nil in Hperm.
    apply app_eq_nil in Hperm. destruct Hperm as [-> _].
    rewrite firstn_nil. apply Qle_refl.
  - inversion Hs as [|? ? Hs' Ha]; subst. rewrite Forall_forall in Ha.
    destruct k as [|k].
    + destruct t; [apply Qle_refl | discriminate].
    + destruct t as [|b t1]; [discriminate|].
      cbn [List.length] in Hlen. rewrite <- Nat.succ_min_distr in Hlen.
      injection Hlen as Hlen.
      cbn [firstn]. change (Np.sum (a :: firstn k s)) with (a + Np.sum (firstn k s)).
      assert (Hin : In a ((b :: t1) ++ rest)).
      { apply (Permutation_in a (Permutation_sym Hperm)). now left. }
      cbn [app] in Hin, Hperm. destruct Hin as [E | Hin].
      * subst b. apply Permutation_cons_inv in Hperm.
        specialize (IH Hs' k t1 rest Hperm Hlen).
        change (Np.sum (a :: t1)) with (a + Np.sum t1). lra.
      * apply in_app_or in Hin. destruct Hin as [Hin | Hin].
        -- apply in_split in Hin. destruct Hin as [l1 [l2 ->]].
           assert (Hp : Permutation ((b :: l1 ++ l2) ++ rest) s).
           { apply (Permutation_cons_inv (a := a)).
             eapply Permutation_trans; [|exact Hperm].
             cbn [app]. rewrite <- !app_assoc. cbn [app].
             eapply Permutation_trans; [apply perm_swap|]. apply perm_skip.
             apply Permutation_middle. }
           assert (Hl : List.length (b :: l1 ++ l2) = Nat.min k (List.length s)).
           { rewrite <- Hlen. cbn [List.length]. rewrite !length_app.
             cbn [List.length]. lia. }
           specialize (IH Hs' k (b :: l1 ++ l2) rest Hp Hl).
           change (Np.sum (b :: l1 ++ a :: l2)) with (b + Np.sum (l1 ++ a :: l2)).
           change (Np.sum (b :: l1 ++ l2)) with (b + Np.sum (l1 ++ l2)) in IH.
           rewrite sum_middle. lra.
        -- apply in_split in Hin. destruct Hin as [r1 [r2 ->]].
           assert (Hp : Permutation (b :: t1 ++ r1 ++ r2) s).
           { apply (Permutation_cons_inv (a := a)).
             eapply Permutation_trans; [|exact Hperm].
             eapply Permutation_trans; [apply perm_swap|]. apply perm_skip.
             rewrite !app_assoc. apply Permutation_middle. }
           assert (Hb : b <= a).
           { apply Ha. apply (Permutation_in b Hp). now left. }
           assert (Hp' : Permutation (t1 ++ b :: r1 ++ r2) s).
           { eapply Permutation_trans; [|exact Hp].
             apply Permutation_sym, Permutation_middle. }
           specialize (IH Hs' k t1 (b :: r1 ++ r2) Hp' Hlen).
           change (Np.sum (b :: t1)) with (b + Np.sum t1). lra.
Qed.

Lemma first_rows_at_most_largest {A : Type} (n : nat) (col : A -> Q) (df : list A) :
  col_sum col (firstn n df) <= col_sum col (Pd.nlargest n col df).
Proof.
  unfold col_sum, Pd.nlargest.
  set (leb := fun a b : A => Qle_bool (col b) (col a)).
  assert (Hsorted : StronglySorted (fun a b => leb a b = true) (sort_keys leb df)).
  { apply sort_keys_sorted; unfold leb.
    - intros a b H. by_order. apply Qle_bool_iff. now apply Qlt_le_weak.
    - intros a b c H1 H2. by_order. apply Qle_bool_iff. eapply Qle_trans; eassumption. }
  assert (Hperm := sort_keys_perm _ leb df).
  replace (map col (firstn n (sort_keys leb df)))
    with (firstn n (map col (sort_keys leb df))) by apply firstn_map.
  apply (largest_dominate (map col (sort_keys leb df))) with (rest := map col (skipn n df)).
  - apply sorted_map.
    apply (sorted_weaken (fun a b => leb a b = true)); [|exact Hsorted].
    intros a b H. now apply Qle_bool_iff.
  - rewrite <- map_app, firstn_skipn. now apply Permutation_map, Permutation_sym.
  - rewrite !length_map, length_firstn. now rewrite (Permutation_length Hperm).
Qed.

(** X19. The revenue of the first five rows of the per-menu table never
    exceeds the revenue of its five best sellers by revenue.  So, for a
    positive total revenue, the concentration rule fires only when the five
    best sellers by revenue make more than 60/100 of the total: it can miss
    a concentration, it never reports one that is not there. *)
Theorem diversify_never_overstates (ma : MenuTable) (data : DataFrame)
    (Hrevenue : 0 < col_sum Total data)
    (Hfires : count_title PDFExporter.diversify_title
                (PDFExporter._generate_business_recommendations ma data) = 1%nat) :
  col_sum Total_Revenue (firstn 5 ma)
    <= col_sum Total_Revenue (Pd.nlargest 5 Total_Revenue ma)
  /\ (60 # 100) * col_sum Total data < col_sum Total_Revenue (firstn 5 ma)
  /\ (60 # 100) * col_sum Total data < col_sum Total_Revenue (Pd.nlargest 5 Total_Revenue ma).
Proof.
  pose proof (first_rows_at_most_largest 5 Total_Revenue ma) as Htop.
  assert (Hgt : Np.gt (PDFExporter.concentration ma data) (Finite 60) = true).
  { rewrite count_title_recommendations, count_rule_concentration,
      count_rule_low_performers, count_rule_high_margin in Hfires.
    destruct (Np.gt (PDFExporter.concentration ma data) (Finite 60)); [reflexivity|].
    destruct (PDFExporter.low_performers ma), (PDFExporter.high_margin_low_volume ma);
      discriminate. }
  apply (concentration_reading ma data Hrevenue) in Hgt.
  split; [exact Htop|]. split; [exact Hgt|].
  eapply Qlt_le_trans; eassumption.
Qed.

Lemma diversify_never_overstates_witness :
  (60 # 100) * col_sum Total ranked_sales
  < col_sum Total_Revenue
      (Pd.nlargest 5 Total_Revenue (Analyzer.get_comprehensive_menu_analysis ranked_sales)).
Proof.
  apply (diversify_never_overstates
           (Analyzer.get_comprehensive_menu_analysis ranked_sales) ranked_sales).
  - vm_compute. reflexivity.
  - vm_compute. reflexivity.
Defined.
